(** * SendBird API server: request/response translation and error normalisation

  A shallow embedding of [server.js] (the Express request adapter) and of
  [sendbird-client.js] (the [SendBirdClient] class wrapping an axios
  instance), together with the properties of the specification that concern
  them.

  Conventions of the embedding.
  - JavaScript strings that hold no lone surrogate are kept as the octets of
    their UTF-8 encoding ([string] of [ascii]); such are the route parameters
    a handler reads, and the strings of a JSON body are only tested for being
    empty and passed on. A lone surrogate has no UTF-8 encoding: the strings
    an exported method may be called with are [JsString]s, in which it is a
    unit of its own.
  - JavaScript numbers are modelled by integers ([Z]); the handlers only ever
    test a number for being falsy (zero) and otherwise pass it on untouched.
  - [undefined] is the [None] of an [option]; every other value that can
    come out of [JSON.parse] is a [Json].
  - [console.log] and [console.error] have no effect on the response nor on
    the outbound call and are left out.
  - The upstream service is an oracle from outbound calls to the outcome of
    the axios promise; the calls made are recorded in a log that each
    operation extends. *)

From Stdlib Require Import String Ascii List ZArith NArith Bool Lia.
Import ListNotations.

Local Open Scope string_scope.

Set Warnings "-register-all".

(** ** JavaScript values *)

Module Js.

Inductive Json : Type :=
| JNull
| JBool (b : bool)
| JNum (n : Z)
| JStr (s : string)
| JArr (items : list Json)
| JObj (fields : list (string * Json)).

(** A thrown value: an [Error] object, possibly an axios error carrying the
    upstream [response] (its [status] and parsed body [data]). *)
Record AxiosResponse : Type := mkAxiosResponse {
  status : Z;
  data : Json
}.

Record JsError : Type := mkError {
  message : string;
  response : option AxiosResponse
}.

(** Completion of a computation: a value, or a thrown error. *)
Inductive Outcome (A : Type) : Type :=
| Returned (a : A)
| Thrown (e : JsError).
Arguments Returned {A} a.
Arguments Thrown {A} e.

(** Any JavaScript string: the octets of the UTF-8 encoding of its code
    points, in order, with each lone surrogate code unit (which UTF-8 cannot
    encode) standing as a unit of its own. The octets are those of
    well-formed UTF-8; a run of octets that is not stands for no string. *)
Inductive JsString : Type :=
| JsEnd
| JsOctet (o : ascii) (rest : JsString)
| JsSurrogate (unit : N) (rest : JsString).

(** A string without lone surrogates, as a [JsString]. *)
Fixpoint of_string (s : string) : JsString :=
  match s with
  | EmptyString => JsEnd
  | String o rest => JsOctet o (of_string rest)
  end.

Coercion of_string : string >-> JsString.

(** [!!s] for a string. *)
Definition nonempty (s : string) : bool :=
  match s with
  | EmptyString => false
  | String _ _ => true
  end.

(** [!!v]: ToBoolean. *)
Definition truthy (v : Json) : bool :=
  match v with
  | JNull => false
  | JBool b => b
  | JNum n => negb (n =? 0)%Z
  | JStr s => nonempty s
  | JArr _ => true
  | JObj _ => true
  end.

(** ToBoolean of a value that may be [undefined]. *)
Definition truthy_opt (v : option Json) : bool :=
  match v with
  | None => false
  | Some x => truthy x
  end.

(** ToBoolean of a string that may be [undefined] (an environment variable,
    a route parameter). *)
Definition truthy_str (v : option string) : bool :=
  match v with
  | None => false
  | Some s => nonempty s
  end.

(** Own property of an object, by key. *)
Fixpoint assoc (k : string) (fields : list (string * Json)) : option Json :=
  match fields with
  | [] => None
  | (k', v) :: rest => if String.eqb k k' then Some v else assoc k rest
  end.

(** [v.k] for the keys read by the handlers ([user_id], [message]), none of
    which is a built-in property of a string, number, boolean or array.
    Reading a property of [null] throws a [TypeError]. *)
Definition member (v : Json) (k : string) : Outcome (option Json) :=
  match v with
  | JNull =>
      Thrown (mkError ("Cannot read properties of null (reading '" ++ k ++ "')") None)
  | JObj fields => Returned (assoc k fields)
  | _ => Returned None
  end.

(** [v?.k]: [undefined] when [v] is [undefined] or [null], [v.k] otherwise. *)
Definition opt_member (v : option Json) (k : string) : option Json :=
  match v with
  | Some (JObj fields) => assoc k fields
  | _ => None
  end.

(** [a || b] where [b] is a defined value. *)
Definition or_else (a : option Json) (b : Json) : Json :=
  match a with
  | Some v => if truthy v then v else b
  | None => b
  end.

(** [a || b] on numbers, [a] possibly [undefined]. *)
Definition or_num (a : option Z) (b : Z) : Z :=
  match a with
  | Some n => if (n =? 0)%Z then b else n
  | None => b
  end.

(** ToString of a string that may be [undefined], as a template literal and
    [encodeURIComponent] apply it. *)
Definition template_str (v : option string) : string :=
  match v with
  | Some s => s
  | None => "undefined"
  end.

(** [k in o], for an object. *)
Definition has_key (k : string) (v : Json) : bool :=
  match v with
  | JObj fields =>
      match assoc k fields with
      | Some _ => true
      | None => false
      end
  | _ => false
  end.

End Js.

(** ** [encodeURIComponent] and [decodeURIComponent] on UTF-8 bytes *)

Module Uri.
Import Js.

Definition between (lo hi n : N) : bool := ((lo <=? n) && (n <=? hi))%N.

(** The characters [encodeURIComponent] leaves alone:
    [A-Z a-z 0-9 - _ . ! ~ * ' ( )]. *)
Definition unreserved (c : ascii) : bool :=
  let n := N_of_ascii c in
  between 65 90 n || between 97 122 n || between 48 57 n
  || existsb (Ascii.eqb c)
       ["-"; "_"; "."; "!"; "~"; "*"; "'"; "("; ")"]%char.

Definition hex_digit (n : N) : ascii :=
  if (n <? 10)%N then ascii_of_N (48 + n) else ascii_of_N (55 + n).

Definition percent_encode (c : ascii) : string :=
  let n := N_of_ascii c in
  String "%" (String (hex_digit (n / 16)) (String (hex_digit (n mod 16)) "")).

(** The escaping of a run of octets: unreserved characters stand for
    themselves, every other octet is written [%XX]. *)
Fixpoint escape_octets (s : string) : string :=
  match s with
  | EmptyString => ""
  | String c rest =>
      (if unreserved c then String c "" else percent_encode c)
        ++ escape_octets rest
  end.

(** [encodeURIComponent(s)]: the code points of [s] are taken in order; a
    lone surrogate throws a [URIError], any other code point contributes the
    escaping of its UTF-8 octets. *)
Fixpoint encodeURIComponent (s : JsString) : Outcome string :=
  match s with
  | JsEnd => Returned ""
  | JsOctet o rest =>
      match encodeURIComponent rest with
      | Returned r =>
          Returned ((if unreserved o then String o "" else percent_encode o) ++ r)
      | Thrown e => Thrown e
      end
  | JsSurrogate _ _ => Thrown (mkError "URI malformed" None)
  end.

Definition hex_value (c : ascii) : option N :=
  let n := N_of_ascii c in
  if between 48 57 n then Some (n - 48)%N
  else if between 65 70 n then Some (n - 55)%N
  else if between 97 102 n then Some (n - 87)%N
  else None.

(** First octet of a multi-octet UTF-8 sequence: the number of continuation
    octets to follow and the admissible range of the next one. *)
Definition lead_octet (b : N) : option (nat * N * N) :=
  if between 194 223 b then Some (1%nat, 128, 191)%N
  else if (b =? 224)%N then Some (2%nat, 160, 191)%N
  else if between 225 236 b || between 238 239 b then Some (2%nat, 128, 191)%N
  else if (b =? 237)%N then Some (2%nat, 128, 159)%N
  else if (b =? 240)%N then Some (3%nat, 144, 191)%N
  else if between 241 243 b then Some (3%nat, 128, 191)%N
  else if (b =? 244)%N then Some (3%nat, 128, 143)%N
  else None.

Definition emit (b : N) (r : option string) : option string :=
  option_map (String (ascii_of_N b)) r.

(** [decode need lo hi s]: [need] continuation octets are still expected,
    the next one within [lo..hi]. [None] stands for the [URIError]. *)
Fixpoint decode (need : nat) (lo hi : N) (s : string) : option string :=
  match s with
  | EmptyString =>
      match need with
      | O => Some ""
      | S _ => None
      end
  | String c rest =>
      if Ascii.eqb c "%" then
        match rest with
        | String h1 (String h2 rest') =>
            match hex_value h1, hex_value h2 with
            | Some a, Some b =>
                let o := (16 * a + b)%N in
                match need with
                | O =>
                    if (o <? 128)%N then emit o (decode 0 128 191 rest')
                    else
                      match lead_octet o with
                      | Some (n, lo', hi') => emit o (decode n lo' hi' rest')
                      | None => None
                      end
                | S n =>
                    if between lo hi o then emit o (decode n 128 191 rest')
                    else None
                end
            | _, _ => None
            end
        | _ => None
        end
      else
        match need with
        | O => option_map (String c) (decode 0 128 191 rest)
        | S _ => None
        end
  end.

Definition decodeURIComponent (s : string) : option string :=
  decode 0 128 191 s.

End Uri.


(** ** The axios instance and the effect of an outbound call *)

Module Axios.
Import Js.

(** What [axios.create] keeps: the base address and the default headers. *)
Record AxiosInstance : Type := mkAxiosInstance {
  baseURL : string;
  headers : list (string * option string)
}.

(** One outbound HTTP request, as issued by [instance.post(url, data)]. *)
Record OutboundCall : Type := mkCall {
  call_method : string;
  call_baseURL : string;
  call_url : string;
  call_headers : list (string * option string);
  call_data : Json
}.

(** The upstream service: how the promise of a call settles. *)
Definition Upstream : Type := OutboundCall -> Outcome AxiosResponse.

(** Computations that may throw and that extend the log of outbound calls. *)
Definition Eff (A : Type) : Type :=
  list OutboundCall -> Outcome A * list OutboundCall.

Definition ret {A : Type} (a : A) : Eff A :=
  fun log => (Returned a, log).

Definition throw {A : Type} (e : JsError) : Eff A :=
  fun log => (Thrown e, log).

Definition bind {A B : Type} (m : Eff A) (k : A -> Eff B) : Eff B :=
  fun log =>
    match m log with
    | (Returned a, log') => k a log'
    | (Thrown e, log') => (Thrown e, log')
    end.

(** [try { body } catch (error) { handler }]. *)
Definition try_catch {A : Type} (body : Eff A) (handler : JsError -> Eff A) : Eff A :=
  fun log =>
    match body log with
    | (Returned a, log') => (Returned a, log')
    | (Thrown e, log') => handler e log'
    end.

(** A pure completion inside [Eff]. *)
Definition lift {A : Type} (o : Outcome A) : Eff A :=
  fun log => (o, log).

(** [await instance.post(url, data)]: the call is issued (logged) with the
    instance's base address and headers, then settles as upstream decides. *)
Definition post (upstream : Upstream) (instance : AxiosInstance)
    (url : string) (payload : Json) : Eff AxiosResponse :=
  fun log =>
    let call := mkCall "POST" (baseURL instance) url (headers instance) payload in
    (upstream call, (log ++ [call])%list).

End Axios.

Declare Scope eff_scope.
Delimit Scope eff_scope with eff.
Notation "x <- m ;; k" := (Axios.bind m (fun x => k))
  (at level 61, m at next level, right associativity) : eff_scope.

(** ** [sendbird-client.js] *)

Module SendBird.
Import Js Axios.
Local Open Scope eff_scope.

(** [process.env]: variables that are set, with their values. *)
Definition Env : Type := list (string * string).

Fixpoint getenv (env : Env) (name : string) : option string :=
  match env with
  | [] => None
  | (n, v) :: rest => if String.eqb name n then Some v else getenv rest name
  end.

Record SendBirdClient : Type := mkClient {
  applicationId : option string;
  apiToken : option string;
  clientBaseURL : string;
  client : AxiosInstance
}.

Definition constructor (env : Env) : Outcome SendBirdClient :=
  let applicationId := getenv env "SENDBIRD_APPLICATION_ID" in
  let apiToken := getenv env "SENDBIRD_API_TOKEN" in
  let baseURL := "https://api-" ++ template_str applicationId ++ ".sendbird.com" in
  if negb (truthy_str applicationId) || negb (truthy_str apiToken) then
    Thrown (mkError
      "SENDBIRD_APPLICATION_ID and SENDBIRD_API_TOKEN must be set in environment variables"
      None)
  else
    Returned (mkClient applicationId apiToken baseURL
      (mkAxiosInstance baseURL
         [("Api-Token", apiToken); ("Content-Type", Some "application/json")])).

Section Operations.
Variable upstream : Upstream.
Variable self : SendBirdClient.

Definition getUserToken (userId : JsString) : Eff Json :=
  try_catch
    (segment <- lift (Uri.encodeURIComponent userId) ;;
     response <- post upstream (client self)
                   ("/v3/users/" ++ segment ++ "/token")
                   (JObj []) ;;
     ret (data response))
    (fun error => throw error).

Definition createUser (userData : Json) : Eff Json :=
  try_catch
    (response <- post upstream (client self) "/v3/users" userData ;;
     ret (data response))
    (fun error => throw error).

End Operations.

End SendBird.

(** ** [server.js] *)

Module Server.
Import Js Axios SendBird.
Local Open Scope eff_scope.

(** What [res.status(code).json(body)] sends; [res.json(body)] alone sends
    status 200. [res_status] is [res.statusCode]. *)
Record Response : Type := mkResponse {
  res_status : Z;
  body : Json
}.

(** Outcome of the client initialisation block: [process.exit(1)] when the
    constructor throws, otherwise the routes are served with the client. *)
Inductive Startup : Type :=
| Exited (code : Z)
| Serving (sendbirdClient : SendBirdClient).

Definition startup (env : Env) : Startup :=
  match constructor env with
  | Returned c => Serving c
  | Thrown _ => Exited 1
  end.

(** [error.response?.status || 500] *)
Definition statusCode (error : JsError) : Z :=
  or_num (option_map status (response error)) 500.

(** [error.response?.data?.message || error.message] *)
Definition errorMessage (error : JsError) : Json :=
  or_else (opt_member (option_map data (response error)) "message")
          (JStr (message error)).

(** The body of a request as the JSON and urlencoded parsers leave it in
    [req.body]: an object ([{}] when there was nothing to parse) or, from the
    JSON parser, an array. *)
Inductive Body : Type :=
| BodyObject (fields : list (string * Json))
| BodyArray (items : list Json).

Definition body_value (b : Body) : Json :=
  match b with
  | BodyObject fields => JObj fields
  | BodyArray items => JArr items
  end.

Section Handlers.
Variable upstream : Upstream.
Variable sendbirdClient : SendBirdClient.

(** [app.get('/health', ...)]; [now] is [new Date().toISOString()]. *)
Definition health (now : string) : Eff Response :=
  ret (mkResponse 200
    (JObj [("status", JStr "OK");
           ("timestamp", JStr now);
           ("service", JStr "SendBird API Server")])).

(** [app.get('/api/users/:userId/token', ...)]; [userId] is
    [req.params.userId]. *)
Definition getToken (userId : option string) : Eff Response :=
  try_catch
    (if negb (truthy_str userId) then
       ret (mkResponse 400
         (JObj [("success", JBool false);
                ("error", JStr "User ID is required");
                ("message", JStr "Please provide a valid user ID")]))
     else
       tokenData <- getUserToken upstream sendbirdClient (template_str userId) ;;
       ret (mkResponse 200
         (JObj [("success", JBool true);
                ("data", tokenData);
                ("message", JStr ("Token retrieved successfully for user: "
                                    ++ template_str userId))])))
    (fun error =>
       ret (mkResponse (statusCode error)
         (JObj [("success", JBool false);
                ("error", errorMessage error);
                ("message", JStr "Failed to get user token")]))).

(** [app.post('/api/users', ...)]; [userData] is [req.body]. *)
Definition postUsers (userData : Json) : Eff Response :=
  try_catch
    (user_id <- lift (member userData "user_id") ;;
     if negb (truthy_opt user_id) then
       ret (mkResponse 400
         (JObj [("success", JBool false);
                ("error", JStr "user_id is required");
                ("message", JStr "Please provide a user_id in the request body")]))
     else
       newUser <- createUser upstream sendbirdClient userData ;;
       ret (mkResponse 201
         (JObj [("success", JBool true);
                ("data", newUser);
                ("message", JStr "User created successfully")])))
    (fun error =>
       ret (mkResponse (statusCode error)
         (JObj [("success", JBool false);
                ("error", errorMessage error);
                ("message", JStr "Failed to create user")]))).

(** [app.use('*', ...)]: the 404 fallback. *)
Definition notFound (originalUrl : string) : Eff Response :=
  ret (mkResponse 404
    (JObj [("success", JBool false);
           ("error", JStr "Endpoint not found");
           ("message", JStr ("The requested endpoint " ++ originalUrl
                               ++ " does not exist"));
           ("availableEndpoints",
            JArr [JStr "GET /health";
                  JStr "GET /api/users/:userId/token";
                  JStr "POST /api/users";
                  JStr "GET /api-docs"])])).

(** [app.use((error, req, res, next) => ...)]: the error handler. *)
Definition errorHandler (error : JsError) : Eff Response :=
  ret (mkResponse 500
    (JObj [("success", JBool false);
           ("error", JStr "Internal server error");
           ("message", JStr "Something went wrong on the server")])).

(** A request as the router hands it over: the route it matched with what the
    handler reads from [req], or the error that a middleware (a body parser,
    the decoding of a route parameter) passed on before any route ran. *)
Inductive Request : Type :=
| GetHealth (now : string)
| GetToken (userId : option string)
| PostUsers (reqBody : Body)
| Unmatched (originalUrl : string)
| Failed (error : JsError).

Definition app (req : Request) : Eff Response :=
  match req with
  | GetHealth now => health now
  | GetToken userId => getToken userId
  | PostUsers reqBody => postUsers (body_value reqBody)
  | Unmatched originalUrl => notFound originalUrl
  | Failed error => errorHandler error
  end.

(** The router decodes the path segment matched by [:userId] with
    [decodeURIComponent]; a segment that does not decode is passed on as an
    error with status 400. *)
Definition tokenRequest (segment : string) : Request :=
  match Uri.decodeURIComponent segment with
  | Some userId => GetToken (Some userId)
  | None =>
      Failed (mkError ("Failed to decode param '" ++ segment ++ "'") None)
  end.

(** The response to a request, with the outbound calls it caused. *)
Definition serve (req : Request) : Outcome Response * list OutboundCall :=
  app req [].

End Handlers.

(** *** The Envelope *)

Definition is_bool (v : option Json) : bool :=
  match v with
  | Some (JBool _) => true
  | _ => false
  end.

Definition is_string (v : option Json) : bool :=
  match v with
  | Some (JStr _) => true
  | _ => false
  end.

(** The success branch: [success: true], [data] and [message], no [error]. *)
Definition success_envelope (v : Json) : Prop :=
  opt_member (Some v) "success" = Some (JBool true)
  /\ has_key "data" v = true
  /\ has_key "message" v = true
  /\ has_key "error" v = false.

(** The failure branch: [success: false], [error] and [message], no [data]. *)
Definition failure_envelope (v : Json) : Prop :=
  opt_member (Some v) "success" = Some (JBool false)
  /\ has_key "error" v = true
  /\ has_key "message" v = true
  /\ has_key "data" v = false.

Definition envelope (v : Json) : Prop :=
  success_envelope v \/ failure_envelope v.

End Server.

(** ** The routes of [server.js], as Express 4 matches them *)

Module Routes.
Import Js Server.

(** The methods the routes are declared for. *)
Inductive Method : Type :=
| GET
| POST.

(** An inbound request once the body parsers have run: [path] is the path
    name of the URL, [originalUrl] the URL as it was sent, [parsed] what the
    parsers left in [req.body] or the error they passed on, [now] the time at
    which it is handled. *)
Record Inbound : Type := mkInbound {
  method : Method;
  path : string;
  originalUrl : string;
  parsed : Outcome Body;
  now : string
}.

(** Route paths are compared without regard to the case of ASCII letters. *)
Definition lower (ch : ascii) : ascii :=
  let n := N_of_ascii ch in
  if Uri.between 65 90 n then ascii_of_N (n + 32) else ch.

Fixpoint eqb_ci (a b : string) : bool :=
  match a, b with
  | EmptyString, EmptyString => true
  | String x a', String y b' => Ascii.eqb (lower x) (lower y) && eqb_ci a' b'
  | _, _ => false
  end.

(** [s] without its prefix [p]. *)
Fixpoint strip_prefix (p s : string) : option string :=
  match p with
  | EmptyString => Some s
  | String x p' =>
      match s with
      | EmptyString => None
      | String y s' =>
          if Ascii.eqb (lower x) (lower y) then strip_prefix p' s' else None
      end
  end.

(** The characters of [s] before its first [/], and what follows them. *)
Fixpoint take_segment (s : string) : string * string :=
  match s with
  | EmptyString => ("", "")
  | String ch rest =>
      if Ascii.eqb ch "/" then ("", s)
      else let (seg, tail) := take_segment rest in (String ch seg, tail)
  end.

(** A route path matches with or without one trailing [/]. *)
Definition is_path (pattern p : string) : bool :=
  eqb_ci p pattern || eqb_ci p (pattern ++ "/").

(** [app.use('/api-docs', ...)] takes every path at or below its mount
    point. *)
Definition under_api_docs (p : string) : bool :=
  match strip_prefix "/api-docs" p with
  | Some EmptyString => true
  | Some (String ch _) => Ascii.eqb ch "/"
  | None => false
  end.

(** The pattern ['/api/users/:userId/token']: [:userId] stands for one or
    more characters other than [/]. The result is the text matched by
    [:userId], not yet decoded. *)
Definition matchTokenRoute (p : string) : option string :=
  match strip_prefix "/api/users/" p with
  | Some rest =>
      let (seg, tail) := take_segment rest in
      if nonempty seg && is_path "/token" tail then Some seg else None
  | None => None
  end.

(** The handler a request ends in, in the order of registration: an error of
    the body parsers goes to the error handler; what lies under [/api-docs]
    is answered by the Swagger UI, outside this development ([None]); then
    come the three routes and the fallback. *)
Definition route (r : Inbound) : option Request :=
  match parsed r with
  | Thrown e => Some (Failed e)
  | Returned reqBody =>
      if under_api_docs (path r) then None
      else
        match method r with
        | GET =>
            if is_path "/health" (path r) then Some (GetHealth (now r))
            else
              match matchTokenRoute (path r) with
              | Some segment => Some (tokenRequest segment)
              | None => Some (Unmatched (originalUrl r))
              end
        | POST =>
            if is_path "/api/users" (path r) then Some (PostUsers reqBody)
            else Some (Unmatched (originalUrl r))
        end
  end.

(** A [GET] of [p] with nothing in the body. *)
Definition get_request (p : string) (now : string) : Inbound :=
  mkInbound GET p p (Returned (BodyObject [])) now.

End Routes.

(** ** Vocabulary of the specification *)

Module Spec.
Import Js Axios SendBird Server.

(** A configuration value that is absent or the empty string. *)
Definition absent_or_empty (v : option string) : Prop :=
  v = None \/ v = Some "".

(** The outbound call of [getUserToken] for a user id without lone
    surrogates. *)
Definition token_call (c : SendBirdClient) (userId : string) : OutboundCall :=
  mkCall "POST" (baseURL (client c))
         ("/v3/users/" ++ Uri.escape_octets userId ++ "/token")
         (headers (client c)) (JObj []).

(** The outbound call of [createUser]. *)
Definition create_call (c : SendBirdClient) (userData : Json) : OutboundCall :=
  mkCall "POST" (baseURL (client c)) "/v3/users" (headers (client c)) userData.

(** The [message] that upstream put in the body of its error response, when
    the error carries a response whose body has that field. *)
Definition upstream_message (e : JsError) : option Json :=
  opt_member (option_map data (response e)) "message".

(** Field [k] of a response body. *)
Definition field (k : string) (r : Response) : option Json :=
  opt_member (Some (body r)) k.

(** The failure response of a path whose fixed summary is [summary], for the
    error [e] thrown by the upstream operation: the status and the [error]
    text follow [e] as far as it carries a usable (truthy) value. *)
Definition maps_failure (summary : string) (e : JsError) (r : Response) : Prop :=
  field "success" r = Some (JBool false)
  /\ field "message" r = Some (JStr summary)
  /\ (forall resp, response e = Some resp -> status resp <> 0%Z ->
        res_status r = status resp)
  /\ (response e = None -> res_status r = 500%Z)
  /\ (forall m, upstream_message e = Some m -> truthy m = true ->
        field "error" r = Some m)
  /\ (truthy_opt (upstream_message e) = false ->
        field "error" r = Some (JStr (message e))).

(** The rule for the [error] field read literally: whenever upstream provided
    a message, the [error] field is that message. *)
Definition error_is_upstream_message_when_present
    (e : JsError) (r : Response) : Prop :=
  forall m, upstream_message e = Some m -> field "error" r = Some m.

(** The three fixed failure responses. *)
Definition missing_userId_response : Response :=
  mkResponse 400
    (JObj [("success", JBool false);
           ("error", JStr "User ID is required");
           ("message", JStr "Please provide a valid user ID")]).

Definition missing_user_id_response : Response :=
  mkResponse 400
    (JObj [("success", JBool false);
           ("error", JStr "user_id is required");
           ("message", JStr "Please provide a user_id in the request body")]).

Definition internal_error_response : Response :=
  mkResponse 500
    (JObj [("success", JBool false);
           ("error", JStr "Internal server error");
           ("message", JStr "Something went wrong on the server")]).

(** The two success responses. *)
Definition token_response (userId : string) (upstreamBody : Json) : Response :=
  mkResponse 200
    (JObj [("success", JBool true);
           ("data", upstreamBody);
           ("message", JStr ("Token retrieved successfully for user: " ++ userId))]).

Definition created_response (upstreamBody : Json) : Response :=
  mkResponse 201
    (JObj [("success", JBool true);
           ("data", upstreamBody);
           ("message", JStr "User created successfully")]).

(** The response built by a handler's [catch] block. *)
Definition caught_response (summary : string) (e : JsError) : Response :=
  mkResponse (statusCode e)
    (JObj [("success", JBool false);
           ("error", errorMessage e);
           ("message", JStr summary)]).

(** Every character of [s] satisfies [p]. *)
Fixpoint all_chars (p : ascii -> bool) (s : string) : bool :=
  match s with
  | EmptyString => true
  | String c rest => p c && all_chars p rest
  end.

Definition is_ascii (c : ascii) : bool := (N_of_ascii c <? 128)%N.

Definition is_hex_upper (c : ascii) : bool :=
  let n := N_of_ascii c in Uri.between 48 57 n || Uri.between 65 70 n.

(** What a percent-encoded path segment is made of. *)
Definition segment_char (c : ascii) : bool :=
  Uri.unreserved c || Ascii.eqb c "%" || is_hex_upper c.

(** Sample values for concrete runs. *)
Definition sample_env : Env :=
  [("SENDBIRD_APPLICATION_ID", "APP1"); ("SENDBIRD_API_TOKEN", "secret")].

Definition sample_client : SendBirdClient :=
  mkClient (Some "APP1") (Some "secret") "https://api-APP1.sendbird.com"
    (mkAxiosInstance "https://api-APP1.sendbird.com"
       [("Api-Token", Some "secret"); ("Content-Type", Some "application/json")]).

Definition sample_token_body : Json :=
  JObj [("access_token", JStr "tok123"); ("expires_at", JNum 1700000000)].

Definition sample_user : list (string * Json) :=
  [("user_id", JStr "john_doe");
   ("nickname", JStr "John Doe");
   ("profile_url", JStr "https://example.com/avatar.jpg");
   ("issue_access_token", JBool true)].

Definition sample_created_body : Json :=
  JObj (sample_user ++ [("access_token", JStr "tok123")])%list.

(** The health response at time [now]. *)
Definition health_body (now : string) : Json :=
  JObj [("status", JStr "OK");
        ("timestamp", JStr now);
        ("service", JStr "SendBird API Server")].

(** An upstream answering every call with status [st] and body [b]. *)
Definition answering (st : Z) (b : Json) : Upstream :=
  fun _ => Returned (mkAxiosResponse st b).

(** An upstream failing every call with [e]. *)
Definition failing (e : JsError) : Upstream :=
  fun _ => Thrown e.

(** Exactly one of the two branches of the Envelope is populated. *)
Definition exactly_one_branch (v : Json) : Prop :=
  (success_envelope v /\ ~ failure_envelope v)
  \/ (failure_envelope v /\ ~ success_envelope v).

(** The escaping of one octet by [encodeURIComponent]. *)
Definition encode_char (ch : ascii) : string :=
  if Uri.unreserved ch then String ch "" else Uri.percent_encode ch.

(** An axios error for a 400 response whose body has an empty [message]. *)
Definition empty_message_error : JsError :=
  mkError "Request failed with status code 400"
    (Some (mkAxiosResponse 400 (JObj [("message", JStr "")]))).

End Spec.

(** ** Further vocabulary: configuration, documented schemas, paths *)

Module Props.
Import Js Axios SendBird Server Routes Spec.

(** [const PORT = process.env.PORT || 3000] of [server.js]. *)
Definition PORT (env : Env) : Json :=
  or_else (option_map JStr (getenv env "PORT")) (JNum 3000).

(** The property names of the response schemas that [swaggerOptions]
    declares under [components.schemas], in the order they are written. *)
Definition UserResponse_properties : list string :=
  ["success"; "data"; "message"].

Definition TokenResponse_properties : list string :=
  ["success"; "data"; "message"].

Definition ErrorResponse_properties : list string :=
  ["success"; "error"; "message"].

(** [Object.keys(v)]. *)
Definition keys (v : Json) : list string :=
  match v with
  | JObj fields => map fst fields
  | _ => []
  end.

(** The calls a request is expected to cause with the client [c]. *)
Definition expected_calls (c : SendBirdClient) (req : Request) : list OutboundCall :=
  match req with
  | GetToken (Some u) => if nonempty u then [token_call c u] else []
  | PostUsers b =>
      if truthy_opt (opt_member (Some (body_value b)) "user_id")
      then [create_call c (body_value b)] else []
  | _ => []
  end.

(** A status code that [res.status] accepts without complaint. *)
Definition valid_status (n : Z) : Prop := (100 <= n <= 599)%Z.

(** Number of occurrences of [ch] in [s]. *)
Fixpoint count_char (ch : ascii) (s : string) : nat :=
  match s with
  | EmptyString => 0
  | String d rest => (if Ascii.eqb ch d then 1 else 0) + count_char ch rest
  end.

(** Percent-decoding of octets, without any check of what they encode. *)
Fixpoint unescape (s : string) : string :=
  match s with
  | EmptyString => ""
  | String ch rest =>
      if Ascii.eqb ch "%" then
        match rest with
        | String h1 (String h2 rest') =>
            match Uri.hex_value h1, Uri.hex_value h2 with
            | Some a, Some b => String (ascii_of_N (16 * a + b)) (unescape rest')
            | _, _ => String ch (unescape rest)
            end
        | _ => String ch (unescape rest)
        end
      else String ch (unescape rest)
  end.

(** Well-formed UTF-8: [need] continuation octets are still expected, the
    next one within [lo..hi]. *)
Fixpoint utf8_valid (need : nat) (lo hi : N) (s : string) : bool :=
  match s with
  | EmptyString =>
      match need with
      | O => true
      | S _ => false
      end
  | String ch rest =>
      let b := N_of_ascii ch in
      match need with
      | O =>
          if (b <? 128)%N then utf8_valid 0 128 191 rest
          else
            match Uri.lead_octet b with
            | Some (n, lo', hi') => utf8_valid n lo' hi' rest
            | None => false
            end
      | S n => Uri.between lo hi b && utf8_valid n 128 191 rest
      end
  end.

(** A JavaScript string without lone surrogates, as its UTF-8 octets. *)
Definition well_formed (s : string) : bool := utf8_valid 0 128 191 s.

(** The two octets of U+00E9, followed by an ASCII letter. *)
Definition sample_non_ascii : string :=
  String (ascii_of_N 195) (String (ascii_of_N 169) "x").

Definition other_client : SendBirdClient :=
  mkClient (Some "APP2") (Some "other") "https://api-APP2.sendbird.com"
    (mkAxiosInstance "https://api-APP2.sendbird.com"
       [("Api-Token", Some "other"); ("Content-Type", Some "application/json")]).

(** An axios error for a response with status [st] and a [message]. *)
Definition status_error (st : Z) (msg : string) : JsError :=
  mkError "Request failed" (Some (mkAxiosResponse st (JObj [("message", JStr msg)]))).

(** Whether a string holds a lone surrogate. *)
Fixpoint has_surrogate (s : JsString) : bool :=
  match s with
  | JsEnd => false
  | JsOctet _ rest => has_surrogate rest
  | JsSurrogate _ _ => true
  end.

(** [segment] is the percent-encoding of the octets [s]: an unreserved
    character stands for itself; any other octet is written as [%] followed
    by its two hexadecimal digits, in upper case. *)
Inductive PercentEncoded : string -> string -> Prop :=
| PE_end : PercentEncoded "" ""
| PE_literal (o : ascii) (s segment : string) :
    Uri.unreserved o = true ->
    PercentEncoded s segment ->
    PercentEncoded (String o s) (String o segment)
| PE_escape (o h1 h2 : ascii) (s segment : string) :
    Uri.unreserved o = false ->
    is_hex_upper h1 = true ->
    is_hex_upper h2 = true ->
    Uri.hex_value h1 = Some (N_of_ascii o / 16)%N ->
    Uri.hex_value h2 = Some (N_of_ascii o mod 16)%N ->
    PercentEncoded s segment ->
    PercentEncoded (String o s) (String "%" (String h1 (String h2 segment))).

(** The error [encodeURIComponent] throws. *)
Definition uri_error : JsError := mkError "URI malformed" None.

(** A user id that is one lone surrogate, U+D800. *)
Definition lone_surrogate : JsString := JsSurrogate 55296 JsEnd.

(** A transport failure: the error carries no response. *)
Definition dns_error : JsError :=
  mkError "getaddrinfo ENOTFOUND api-APP1.sendbird.com" None.

(** An axios error for a 502 whose body is a page of HTML. *)
Definition bad_gateway_error : JsError :=
  mkError "Request failed with status code 502"
    (Some (mkAxiosResponse 502 (JStr "<html>Bad Gateway</html>"))).

(** The response of the 404 fallback for [originalUrl]. *)
Definition not_found_response (originalUrl : string) : Response :=
  mkResponse 404
    (JObj [("success", JBool false);
           ("error", JStr "Endpoint not found");
           ("message", JStr ("The requested endpoint " ++ originalUrl
                               ++ " does not exist"));
           ("availableEndpoints",
            JArr [JStr "GET /health";
                  JStr "GET /api/users/:userId/token";
                  JStr "POST /api/users";
                  JStr "GET /api-docs"])]).

(** The ways a request is answered: which branch of which handler produced
    the response, and the outbound calls made on the way. *)
Inductive Answer (upstream : Upstream) (c : SendBirdClient) :
    Request -> Response -> list OutboundCall -> Prop :=
| AnsHealth (now : string) :
    Answer upstream c (GetHealth now) (mkResponse 200 (health_body now)) []
| AnsNoUserId (userId : option string) :
    truthy_str userId = false ->
    Answer upstream c (GetToken userId) missing_userId_response []
| AnsToken (u : string) (resp : AxiosResponse) :
    nonempty u = true ->
    upstream (token_call c u) = Returned resp ->
    Answer upstream c (GetToken (Some u)) (token_response u (data resp))
           [token_call c u]
| AnsTokenFailed (u : string) (e : JsError) :
    nonempty u = true ->
    upstream (token_call c u) = Thrown e ->
    Answer upstream c (GetToken (Some u))
           (caught_response "Failed to get user token" e) [token_call c u]
| AnsNoUser_id (b : Body) :
    truthy_opt (opt_member (Some (body_value b)) "user_id") = false ->
    Answer upstream c (PostUsers b) missing_user_id_response []
| AnsCreated (b : Body) (resp : AxiosResponse) :
    truthy_opt (opt_member (Some (body_value b)) "user_id") = true ->
    upstream (create_call c (body_value b)) = Returned resp ->
    Answer upstream c (PostUsers b) (created_response (data resp))
           [create_call c (body_value b)]
| AnsCreateFailed (b : Body) (e : JsError) :
    truthy_opt (opt_member (Some (body_value b)) "user_id") = true ->
    upstream (create_call c (body_value b)) = Thrown e ->
    Answer upstream c (PostUsers b)
           (caught_response "Failed to create user" e)
           [create_call c (body_value b)]
| AnsNotFound (originalUrl : string) :
    Answer upstream c (Unmatched originalUrl) (not_found_response originalUrl) []
| AnsError (error : JsError) :
    Answer upstream c (Failed error) internal_error_response [].

End Props.

Import Js Axios SendBird Server Routes Spec Props.

(** ** Runs of the client operations and of the handlers *)

Section Runs.
Variable upstream : Upstream.
Variable c : SendBirdClient.

Lemma encodeURIComponent_of_string (s : string) :
  Uri.encodeURIComponent s = Returned (Uri.escape_octets s).
Proof.
  induction s as [|o s IH]; simpl.
  - reflexivity.
  - rewrite IH. reflexivity.
Qed.

Lemma getUserToken_run (userId : string) (log : list OutboundCall) :
  getUserToken upstream c userId log =
  (match upstream (token_call c userId) with
   | Returned resp => Returned (data resp)
   | Thrown e => Thrown e
   end, (log ++ [token_call c userId])%list).
Proof.
  unfold getUserToken, try_catch, bind, lift, post, ret, throw, token_call.
  rewrite encodeURIComponent_of_string.
  destruct (upstream _); reflexivity.
Qed.

Lemma createUser_run (userData : Json) (log : list OutboundCall) :
  createUser upstream c userData log =
  (match upstream (create_call c userData) with
   | Returned resp => Returned (data resp)
   | Thrown e => Thrown e
   end, (log ++ [create_call c userData])%list).
Proof.
  unfold createUser, try_catch, bind, post, ret, throw, create_call.
  destruct (upstream _); reflexivity.
Qed.

Lemma getToken_falsy (userId : option string) (log : list OutboundCall) :
  truthy_str userId = false ->
  getToken upstream c userId log = (Returned missing_userId_response, log).
Proof.
  intros H. unfold getToken, try_catch. rewrite H. reflexivity.
Qed.

Lemma getToken_run (userId : string) (log : list OutboundCall) :
  nonempty userId = true ->
  getToken upstream c (Some userId) log =
  (Returned (match upstream (token_call c userId) with
             | Returned resp => token_response userId (data resp)
             | Thrown e => caught_response "Failed to get user token" e
             end), (log ++ [token_call c userId])%list).
Proof.
  intros H. destruct userId as [|a s]; [discriminate H|].
  unfold getToken, try_catch, bind. cbn [truthy_str nonempty negb template_str].
  rewrite getUserToken_run.
  destruct (upstream _); reflexivity.
Qed.

Lemma postUsers_falsy (userData : Json) (log : list OutboundCall) :
  userData <> JNull ->
  truthy_opt (opt_member (Some userData) "user_id") = false ->
  postUsers upstream c userData log = (Returned missing_user_id_response, log).
Proof.
  intros Hn H. unfold postUsers, try_catch, bind, lift.
  destruct userData; try congruence; simpl in *; try reflexivity.
  rewrite H. reflexivity.
Qed.

Lemma postUsers_run (userData : Json) (log : list OutboundCall) :
  truthy_opt (opt_member (Some userData) "user_id") = true ->
  postUsers upstream c userData log =
  (Returned (match upstream (create_call c userData) with
             | Returned resp => created_response (data resp)
             | Thrown e => caught_response "Failed to create user" e
             end), (log ++ [create_call c userData])%list).
Proof.
  intros H. unfold postUsers, try_catch, bind, lift.
  destruct userData; simpl in H; try discriminate.
  cbn [member]. rewrite H. cbn [negb].
  rewrite createUser_run. destruct (upstream _); reflexivity.
Qed.

Lemma postUsers_null (log : list OutboundCall) :
  postUsers upstream c JNull log =
  (Returned (caught_response "Failed to create user"
     (mkError "Cannot read properties of null (reading 'user_id')" None)), log).
Proof. reflexivity. Qed.

End Runs.

(** ** Percent-encoding *)

Lemma all_chars_app (p : ascii -> bool) (s t : string) :
  all_chars p (s ++ t) = all_chars p s && all_chars p t.
Proof.
  induction s as [|ch s IH]; simpl.
  - reflexivity.
  - rewrite IH. apply andb_assoc.
Qed.

Lemma encode_char_segment (ch : ascii) :
  all_chars segment_char (encode_char ch) = true.
Proof.
  destruct ch as [[] [] [] [] [] [] [] []]; vm_compute; reflexivity.
Qed.

(** The encoded user id is made of unreserved characters and of [%XX]
    escapes only; in particular it holds no [/], [?] or [#]. *)
Lemma escape_octets_segment (s : string) :
  all_chars segment_char (Uri.escape_octets s) = true.
Proof.
  induction s as [|ch s IH]; simpl.
  - reflexivity.
  - fold (encode_char ch). rewrite all_chars_app, IH, encode_char_segment.
    reflexivity.
Qed.

Lemma decode_encode_char (ch : ascii) (rest : string) :
  is_ascii ch = true ->
  Uri.decode 0 128 191 (encode_char ch ++ rest) =
  option_map (String ch) (Uri.decode 0 128 191 rest).
Proof.
  destruct ch as [[] [] [] [] [] [] [] []]; intros H;
    first [discriminate H | reflexivity].
Qed.

(** The router's decoding undoes the client's encoding, on ASCII text. *)
Lemma decode_encode_ascii (s : string) :
  all_chars is_ascii s = true ->
  Uri.decodeURIComponent (Uri.escape_octets s) = Some s.
Proof.
  unfold Uri.decodeURIComponent.
  induction s as [|ch s IH]; simpl; intros H.
  - reflexivity.
  - apply andb_true_iff in H. destruct H as [Hc Hs].
    fold (encode_char ch). rewrite decode_encode_char by exact Hc.
    rewrite IH by exact Hs. reflexivity.
Qed.

Lemma percent_encode_digits (o : ascii) :
  Uri.unreserved o = false ->
  exists h1 h2,
    Uri.percent_encode o = String "%" (String h1 (String h2 ""))
    /\ is_hex_upper h1 = true
    /\ is_hex_upper h2 = true
    /\ Uri.hex_value h1 = Some (N_of_ascii o / 16)%N
    /\ Uri.hex_value h2 = Some (N_of_ascii o mod 16)%N.
Proof.
  destruct o as [[] [] [] [] [] [] [] []]; intros H;
    first [ discriminate H
          | eexists; eexists; repeat split; reflexivity ].
Qed.

(** The escaping that [encodeURIComponent] applies is the percent-encoding. *)
Lemma escape_octets_percent_encoded (s : string) :
  PercentEncoded s (Uri.escape_octets s).
Proof.
  induction s as [|o s IH]; simpl.
  - constructor.
  - destruct (Uri.unreserved o) eqn:Hu.
    + simpl. apply PE_literal; assumption.
    + destruct (percent_encode_digits o Hu) as (h1 & h2 & -> & H1 & H2 & H3 & H4).
      simpl. apply PE_escape; assumption.
Qed.

Lemma encodeURIComponent_surrogate (s : JsString) :
  has_surrogate s = true -> Uri.encodeURIComponent s = Thrown uri_error.
Proof.
  induction s as [|o s IH|u s IH]; simpl; intros H.
  - discriminate H.
  - rewrite (IH H). reflexivity.
  - reflexivity.
Qed.

Lemma no_surrogate_of_string (s : JsString) :
  has_surrogate s = false -> exists t : string, s = of_string t.
Proof.
  induction s as [|o s IH|u s IH]; simpl; intros H.
  - exists "". reflexivity.
  - destruct (IH H) as [t ->]. exists (String o t). reflexivity.
  - discriminate H.
Qed.

Lemma getUserToken_surrogate (upstream : Upstream) (c : SendBirdClient)
    (userId : JsString) (log : list OutboundCall) :
  has_surrogate userId = true ->
  getUserToken upstream c userId log = (Thrown uri_error, log).
Proof.
  intros H. unfold getUserToken, try_catch, bind, lift, throw.
  rewrite (encodeURIComponent_surrogate userId H). reflexivity.
Qed.

(** ** Route matching *)

Lemma option_map_String_nonempty (ch : ascii) (r : option string) (u : string) :
  option_map (String ch) r = Some u -> nonempty u = true.
Proof.
  destruct r as [v|]; simpl; intros H; inversion H. reflexivity.
Qed.

Lemma decode_nonempty (s u : string) (need : nat) (lo hi : N) :
  Uri.decode need lo hi s = Some u -> nonempty s = true -> nonempty u = true.
Proof.
  destruct s as [|ch rest]; [discriminate 2|]. intros H _.
  cbn [Uri.decode] in H. unfold Uri.emit in H.
  repeat match type of H with
         | context [if ?x then _ else _] => destruct x
         | context [match ?x with _ => _ end] => destruct x
         end;
    try discriminate H; exact (option_map_String_nonempty _ _ _ H).
Qed.

Lemma matchTokenRoute_nonempty (p segment : string) :
  matchTokenRoute p = Some segment -> nonempty segment = true.
Proof.
  unfold matchTokenRoute.
  destruct (strip_prefix "/api/users/" p) as [rest|]; [|discriminate].
  destruct (take_segment rest) as [seg tail].
  destruct (nonempty seg) eqn:Hn; simpl; [|discriminate].
  destruct (is_path "/token" tail); [|discriminate].
  intros H. inversion H; subst. exact Hn.
Qed.

(** ** The Envelope of each response *)

Lemma exactly_one_branch_envelope (v : Json) :
  exactly_one_branch v -> envelope v.
Proof. intros [[H _]|[H _]]; [left|right]; exact H. Qed.

Lemma success_fields_exactly_one (d : Json) (m : string) :
  exactly_one_branch
    (JObj [("success", JBool true); ("data", d); ("message", JStr m)]).
Proof.
  left. split.
  - repeat split; reflexivity.
  - intros [H _]. discriminate H.
Qed.

Lemma failure_fields_exactly_one (e : Json) (m : string) (extra : list (string * Json)) :
  assoc "data" extra = None ->
  exactly_one_branch
    (JObj (("success", JBool false) :: ("error", e) :: ("message", JStr m) :: extra)).
Proof.
  intros Hx. right. split.
  - repeat split; try reflexivity. simpl. rewrite Hx. reflexivity.
  - intros [H _]. discriminate H.
Qed.

Lemma caught_response_exactly_one (summary : string) (e : JsError) :
  exactly_one_branch (body (caught_response summary e)).
Proof. apply (failure_fields_exactly_one _ _ []). reflexivity. Qed.

Lemma caught_maps_failure (summary : string) (e : JsError) :
  maps_failure summary e (caught_response summary e).
Proof.
  unfold maps_failure, field, upstream_message, caught_response, statusCode,
    errorMessage. cbn [body res_status].
  repeat split.
  - intros resp Hr Hs. rewrite Hr. simpl.
    destruct (Z.eqb_spec (status resp) 0) as [E|_]; [contradiction|reflexivity].
  - intros Hr. rewrite Hr. reflexivity.
  - intros m Hm Ht. simpl. rewrite Hm. simpl. rewrite Ht. reflexivity.
  - intros Hf. simpl.
    destruct (opt_member (option_map data (response e)) "message") as [m|];
      simpl in *; [rewrite Hf|]; reflexivity.
Qed.

(** ** Every request is answered, with at most one outbound call *)

Lemma getToken_answers (upstream : Upstream) (c : SendBirdClient)
    (userId : option string) (log : list OutboundCall) :
  exists r calls,
    getToken upstream c userId log = (Returned r, (log ++ calls)%list)
    /\ (calls = [] \/ exists u, userId = Some u /\ calls = [token_call c u])
    /\ exactly_one_branch (body r).
Proof.
  destruct (truthy_str userId) eqn:Ht.
  - destruct userId as [u|]; [|discriminate Ht].
    rewrite (getToken_run upstream c u log Ht).
    eexists; exists [token_call c u]. split; [reflexivity|].
    split; [right; exists u; split; reflexivity|].
    destruct (upstream _).
    + apply success_fields_exactly_one.
    + apply caught_response_exactly_one.
  - rewrite (getToken_falsy upstream c userId log Ht).
    eexists; exists []. rewrite app_nil_r. split; [reflexivity|].
    split; [left; reflexivity|].
    apply (failure_fields_exactly_one _ _ []). reflexivity.
Qed.

Lemma postUsers_answers (upstream : Upstream) (c : SendBirdClient)
    (userData : Json) (log : list OutboundCall) :
  exists r calls,
    postUsers upstream c userData log = (Returned r, (log ++ calls)%list)
    /\ (calls = [] \/ calls = [create_call c userData])
    /\ exactly_one_branch (body r).
Proof.
  destruct (truthy_opt (opt_member (Some userData) "user_id")) eqn:Ht.
  - rewrite (postUsers_run upstream c userData log Ht).
    eexists; exists [create_call c userData]. split; [reflexivity|].
    split; [right; reflexivity|].
    destruct (upstream _).
    + apply success_fields_exactly_one.
    + apply caught_response_exactly_one.
  - assert (Hcases : userData = JNull \/ userData <> JNull)
      by (destruct userData; (left; reflexivity) || (right; discriminate)).
    destruct Hcases as [-> | Hn].
    + rewrite postUsers_null. eexists; exists []. rewrite app_nil_r.
      split; [reflexivity|]. split; [left; reflexivity|].
      apply caught_response_exactly_one.
    + rewrite (postUsers_falsy upstream c userData log Hn Ht).
      eexists; exists []. rewrite app_nil_r. split; [reflexivity|].
      split; [left; reflexivity|].
      apply (failure_fields_exactly_one _ _ []). reflexivity.
Qed.

Lemma notFound_exactly_one (originalUrl : string) (log : list OutboundCall) :
  exists r,
    notFound originalUrl log = (Returned r, log)
    /\ exactly_one_branch (body r).
Proof.
  eexists. split; [reflexivity|].
  apply (failure_fields_exactly_one _ _ [(_, _)]). reflexivity.
Qed.

(** The calls a request causes: none, or the single call of its operation. *)
Lemma app_calls (upstream : Upstream) (c : SendBirdClient)
    (req : Request) (log : list OutboundCall) :
  exists r calls,
    app upstream c req log = (Returned r, (log ++ calls)%list)
    /\ (calls = []
        \/ (exists u, calls = [token_call c u])
        \/ (exists d, calls = [create_call c d])).
Proof.
  destruct req as [now|userId|b|url|e]; simpl.
  - eexists; exists []. rewrite app_nil_r. split; [reflexivity|left; reflexivity].
  - destruct (getToken_answers upstream c userId log) as (r & calls & H & Hc & _).
    exists r, calls. split; [exact H|].
    destruct Hc as [Hc|(u & _ & Hc)]; [left; exact Hc|right; left; exists u; exact Hc].
  - destruct (postUsers_answers upstream c (body_value b) log) as (r & calls & H & Hc & _).
    exists r, calls. split; [exact H|].
    destruct Hc as [Hc|Hc]; [left; exact Hc|right; right; eexists; exact Hc].
  - eexists; exists []. rewrite app_nil_r. split; [reflexivity|left; reflexivity].
  - eexists; exists []. rewrite app_nil_r. split; [reflexivity|left; reflexivity].
Qed.

(** ** C1: the two branches of the Envelope *)

(** C1. Every response of the token handler, of the user-creation handler and
    of the 404 fallback populates exactly one branch of the Envelope: either
    [success] is [true] and the body has [data] and [message] and no [error],
    or [success] is [false] and the body has [error] and [message] and no
    [data]. The handlers always answer. *)
Theorem envelope_exactly_one_branch :
  forall (upstream : Upstream) (c : SendBirdClient) (log : list OutboundCall),
    (forall userId : option string, exists r log',
        getToken upstream c userId log = (Returned r, log')
        /\ exactly_one_branch (body r))
    /\ (forall userData : Json, exists r log',
        postUsers upstream c userData log = (Returned r, log')
        /\ exactly_one_branch (body r))
    /\ (forall originalUrl : string, exists r log',
        notFound originalUrl log = (Returned r, log')
        /\ exactly_one_branch (body r)).
Proof.
  intros upstream c log. repeat split.
  - intros userId.
    destruct (getToken_answers upstream c userId log) as (r & calls & H & _ & He).
    exists r, (log ++ calls)%list. split; assumption.
  - intros userData.
    destruct (postUsers_answers upstream c userData log) as (r & calls & H & _ & He).
    exists r, (log ++ calls)%list. split; assumption.
  - intros url. destruct (notFound_exactly_one url log) as (r & H & He).
    exists r, log. split; assumption.
Qed.

(** ** C2: failures of the upstream operations *)

(** C2, as stated, fails: an upstream error whose body carries the message
    [""] is answered with the local error's message in [error], not with the
    message upstream provided. *)
Lemma empty_upstream_message_not_forwarded :
  exists r log',
    getToken (failing empty_message_error) sample_client (Some "u1") []
      = (Returned r, log')
    /\ upstream_message empty_message_error = Some (JStr "")
    /\ field "error" r = Some (JStr "Request failed with status code 400")
    /\ ~ error_is_upstream_message_when_present empty_message_error r.
Proof.
  eexists. eexists. split; [reflexivity|].
  split; [reflexivity|]. split; [reflexivity|].
  intros H. specialize (H (JStr "") eq_refl). discriminate H.
Qed.

(** C2, amended. When the upstream call of [getUserToken] or [createUser]
    throws [e], the handler answers with [success: false] and the fixed
    [message] of its path; the status is the one of the upstream response when
    there is one and it is not zero, and 500 when [e] carries no response; the
    [error] field is the [message] of the upstream body when that is present
    and truthy, and the message of [e] otherwise. *)
Theorem upstream_failure_response :
  forall (upstream : Upstream) (c : SendBirdClient) (e : JsError)
         (log : list OutboundCall),
    (forall userId : string,
        nonempty userId = true ->
        upstream (token_call c userId) = Thrown e ->
        exists r,
          getToken upstream c (Some userId) log
            = (Returned r, (log ++ [token_call c userId])%list)
          /\ maps_failure "Failed to get user token" e r)
    /\ (forall userData : Json,
        truthy_opt (opt_member (Some userData) "user_id") = true ->
        upstream (create_call c userData) = Thrown e ->
        exists r,
          postUsers upstream c userData log
            = (Returned r, (log ++ [create_call c userData])%list)
          /\ maps_failure "Failed to create user" e r).
Proof.
  intros upstream c e log. split.
  - intros userId Hn Hu. rewrite (getToken_run upstream c userId log Hn), Hu.
    eexists. split; [reflexivity|apply caught_maps_failure].
  - intros userData Ht Hu. rewrite (postUsers_run upstream c userData log Ht), Hu.
    eexists. split; [reflexivity|apply caught_maps_failure].
Qed.

Lemma upstream_failure_response_witness :
  (exists r,
      getToken (failing empty_message_error) sample_client (Some "u1") []
        = (Returned r, [token_call sample_client "u1"])
      /\ maps_failure "Failed to get user token" empty_message_error r)
  /\ (exists r,
      postUsers (failing empty_message_error) sample_client
                (JObj [("user_id", JStr "u1")]) []
        = (Returned r, [create_call sample_client (JObj [("user_id", JStr "u1")])])
      /\ maps_failure "Failed to create user" empty_message_error r).
Proof.
  destruct (upstream_failure_response (failing empty_message_error)
              sample_client empty_message_error []) as [Ht Hc].
  split.
  - apply (Ht "u1"); reflexivity.
  - apply (Hc (JObj [("user_id", JStr "u1")])); reflexivity.
Defined.

(** ** C3: a missing or empty identifier *)

(** C3, as stated, fails on the token path: an inbound request whose
    [userId] segment is empty is not matched by the token route; it gets the
    404 fallback, not a 400. *)
Lemma empty_userId_segment_gets_404 :
  route (get_request "/api/users//token" "2024-01-15T10:30:00.000Z")
    = Some (Unmatched "/api/users//token")
  /\ exists r,
      serve (answering 200 sample_token_body) sample_client
            (Unmatched "/api/users//token") = (Returned r, [])
      /\ res_status r = 404%Z
      /\ res_status r <> 400%Z
      /\ field "error" r = Some (JStr "Endpoint not found").
Proof.
  split; [reflexivity|].
  eexists. split; [reflexivity|]. repeat split. discriminate.
Qed.

(** C3, amended. A user-creation request whose body has no [user_id] or an
    empty one is answered with status 400, [success: false] and the error
    [user_id is required], without any outbound call. The token handler
    answers 400 with [User ID is required], again without a call, when
    [req.params.userId] is missing or empty; the token route never hands it
    such a value, since [:userId] matches a non-empty segment only, and no
    request that the token route matches is answered with that 400; a [GET]
    of [/api/users//token] ends in the 404 fallback, with no outbound call
    either. *)
Theorem missing_identifier_rejected :
  forall (upstream : Upstream) (c : SendBirdClient) (log : list OutboundCall),
    (forall b : Body,
        opt_member (Some (body_value b)) "user_id" = None
        \/ opt_member (Some (body_value b)) "user_id" = Some (JStr "") ->
        app upstream c (PostUsers b) log
          = (Returned (mkResponse 400
               (JObj [("success", JBool false);
                      ("error", JStr "user_id is required");
                      ("message", JStr "Please provide a user_id in the request body")])),
             log))
    /\ (forall userId : option string,
        userId = None \/ userId = Some "" ->
        app upstream c (GetToken userId) log
          = (Returned (mkResponse 400
               (JObj [("success", JBool false);
                      ("error", JStr "User ID is required");
                      ("message", JStr "Please provide a valid user ID")])), log))
    /\ (forall p segment : string,
        matchTokenRoute p = Some segment ->
        nonempty segment = true
        /\ fst (app upstream c (tokenRequest segment) log)
           <> Returned (mkResponse 400
                (JObj [("success", JBool false);
                       ("error", JStr "User ID is required");
                       ("message", JStr "Please provide a valid user ID")])))
    /\ (forall (url now : string) (b : Body),
        route (mkInbound GET "/api/users//token" url (Returned b) now)
          = Some (Unmatched url)
        /\ app upstream c (Unmatched url) log
           = (Returned (not_found_response url), log)).
Proof.
  intros upstream c log. split; [|split; [|split]].
  - intros b H. simpl app. apply postUsers_falsy.
    + destruct b; discriminate.
    + destruct H as [-> | ->]; reflexivity.
  - intros userId [-> | ->]; apply getToken_falsy; reflexivity.
  - intros p segment Hm.
    assert (Hn : nonempty segment = true) by exact (matchTokenRoute_nonempty _ _ Hm).
    split; [exact Hn|]. unfold tokenRequest.
    destruct (Uri.decodeURIComponent segment) as [u|] eqn:Hd; simpl app.
    + rewrite (getToken_run upstream c u log (decode_nonempty _ _ _ _ _ Hd Hn)).
      destruct (upstream (token_call c u)); simpl; intros H; inversion H.
    + simpl. intros H. inversion H.
  - intros url now b. split; reflexivity.
Qed.

Lemma missing_identifier_rejected_witness :
  app (answering 200 sample_token_body) sample_client
      (PostUsers (BodyObject [("nickname", JStr "Lala")])) []
    = (Returned missing_user_id_response, [])
  /\ app (answering 200 sample_token_body) sample_client (GetToken (Some "")) []
    = (Returned missing_userId_response, [])
  /\ nonempty "User%202" = true.
Proof.
  destruct (missing_identifier_rejected (answering 200 sample_token_body)
              sample_client []) as (Hc & Ht & Hm & _).
  split; [|split].
  - apply Hc. left. reflexivity.
  - apply Ht. right. reflexivity.
  - apply (proj1 (Hm "/api/users/User%202/token" "User%202" eq_refl)).
Defined.

(** ** C4: a token is retrieved *)

(** C4. When the path segment decodes to a non-empty [userId] and the
    upstream call answers, the response has status 200, [success: true],
    [data] equal to the upstream body and a [message] naming the decoded
    [userId]; one call is made. For [GET /api/users/User%202/token] and the
    upstream body [{access_token: tok123, expires_at: 1700000000}] the
    response is the one of the scenario. *)
Theorem token_success_response :
  forall (upstream : Upstream) (c : SendBirdClient),
    (forall (segment userId : string) (resp : AxiosResponse),
        Uri.decodeURIComponent segment = Some userId ->
        nonempty userId = true ->
        upstream (token_call c userId) = Returned resp ->
        serve upstream c (tokenRequest segment)
          = (Returned (mkResponse 200
               (JObj [("success", JBool true);
                      ("data", data resp);
                      ("message",
                       JStr ("Token retrieved successfully for user: " ++ userId))])),
             [token_call c userId]))
    /\ (forall st : Z,
        upstream (token_call c "User 2")
          = Returned (mkAxiosResponse st
              (JObj [("access_token", JStr "tok123");
                     ("expires_at", JNum 1700000000)])) ->
        serve upstream c (tokenRequest "User%202")
          = (Returned (mkResponse 200
               (JObj [("success", JBool true);
                      ("data", JObj [("access_token", JStr "tok123");
                                     ("expires_at", JNum 1700000000)]);
                      ("message",
                       JStr "Token retrieved successfully for user: User 2")])),
             [token_call c "User 2"])).
Proof.
  intros upstream c.
  assert (Hgen : forall (segment userId : string) (resp : AxiosResponse),
             Uri.decodeURIComponent segment = Some userId ->
             nonempty userId = true ->
             upstream (token_call c userId) = Returned resp ->
             serve upstream c (tokenRequest segment)
             = (Returned (token_response userId (data resp)),
                [token_call c userId])).
  { intros segment userId resp Hd Hn Hu. unfold serve, tokenRequest.
    rewrite Hd. simpl app. rewrite (getToken_run upstream c userId [] Hn), Hu.
    reflexivity. }
  split.
  - exact Hgen.
  - intros st Hu. exact (Hgen "User%202" "User 2" _ eq_refl eq_refl Hu).
Qed.

Lemma token_success_response_witness :
  serve (answering 200 sample_token_body) sample_client (tokenRequest "User%202")
    = (Returned (token_response "User 2" sample_token_body),
       [token_call sample_client "User 2"])
  /\ serve (answering 200 sample_token_body) sample_client (tokenRequest "lala")
    = (Returned (token_response "lala" sample_token_body),
       [token_call sample_client "lala"]).
Proof.
  destruct (token_success_response (answering 200 sample_token_body)
              sample_client) as [Hgen Hscn].
  split.
  - apply (Hscn 200%Z). reflexivity.
  - apply (Hgen "lala" "lala" (mkAxiosResponse 200 sample_token_body));
      reflexivity.
Defined.

(** ** C5: a user is created *)

(** C5. [createUser] issues one call whose payload is the value it was given.
    A user-creation request whose body has a truthy (in particular a
    non-empty) [user_id] causes exactly that call with [req.body] as payload,
    and when upstream answers the response has status 201, [success: true],
    [data] equal to the upstream body and the message
    [User created successfully]. *)
Theorem create_user_forwards_body :
  forall (upstream : Upstream) (c : SendBirdClient) (log : list OutboundCall),
    (forall userData : Json,
        snd (createUser upstream c userData log)
          = (log ++ [mkCall "POST" (baseURL (client c)) "/v3/users"
                           (headers (client c)) userData])%list)
    /\ (forall b : Body,
        truthy_opt (opt_member (Some (body_value b)) "user_id") = true ->
        exists r,
          app upstream c (PostUsers b) log
            = (Returned r,
               (log ++ [mkCall "POST" (baseURL (client c)) "/v3/users"
                               (headers (client c)) (body_value b)])%list)
          /\ (forall resp : AxiosResponse,
                upstream (create_call c (body_value b)) = Returned resp ->
                r = mkResponse 201
                      (JObj [("success", JBool true);
                             ("data", data resp);
                             ("message", JStr "User created successfully")]))).
Proof.
  intros upstream c log. split.
  - intros userData. rewrite createUser_run. reflexivity.
  - intros b Ht. simpl app.
    rewrite (postUsers_run upstream c (body_value b) log Ht).
    eexists. split; [reflexivity|].
    intros resp Hu. rewrite Hu. reflexivity.
Qed.

Lemma create_user_forwards_body_witness :
  exists r,
    app (answering 200 sample_created_body) sample_client
        (PostUsers (BodyObject sample_user)) []
      = (Returned r,
         [mkCall "POST" "https://api-APP1.sendbird.com" "/v3/users"
                 [("Api-Token", Some "secret");
                  ("Content-Type", Some "application/json")]
                 (JObj sample_user)])
    /\ r = created_response sample_created_body.
Proof.
  destruct (create_user_forwards_body (answering 200 sample_created_body)
              sample_client []) as [_ Hc].
  destruct (Hc (BodyObject sample_user) eq_refl) as (r & Hr & Hok).
  exists r. split.
  - exact Hr.
  - apply (Hok (mkAxiosResponse 200 sample_created_body)). reflexivity.
Defined.

(** ** C6: failures outside the upstream operations *)

(** In the handlers, a [catch] block is only ever entered with an error that
    the upstream call threw: on a parsed body, nothing else in the [try]
    block fails. *)
Lemma postUsers_catch_only_upstream (upstream : Upstream) (c : SendBirdClient)
    (b : Body) (log log' : list OutboundCall) (r : Response) :
  app upstream c (PostUsers b) log = (Returned r, log') ->
  field "message" r = Some (JStr "Failed to create user") ->
  exists e,
    upstream (create_call c (body_value b)) = Thrown e
    /\ r = caught_response "Failed to create user" e.
Proof.
  simpl app. intros H Hm.
  destruct (truthy_opt (opt_member (Some (body_value b)) "user_id")) eqn:Ht.
  - rewrite (postUsers_run upstream c (body_value b) log Ht) in H.
    destruct (upstream _) as [resp|e]; inversion H; subst.
    + discriminate Hm.
    + exists e. split; reflexivity.
  - rewrite postUsers_falsy in H; [|destruct b; discriminate|exact Ht].
    inversion H; subst. discriminate Hm.
Qed.

Lemma getToken_catch_only_upstream (upstream : Upstream) (c : SendBirdClient)
    (userId : option string) (log log' : list OutboundCall) (r : Response) :
  app upstream c (GetToken userId) log = (Returned r, log') ->
  field "message" r = Some (JStr "Failed to get user token") ->
  exists u e,
    userId = Some u
    /\ upstream (token_call c u) = Thrown e
    /\ r = caught_response "Failed to get user token" e.
Proof.
  simpl app. intros H Hm.
  destruct (truthy_str userId) eqn:Ht.
  - destruct userId as [u|]; [|discriminate Ht].
    rewrite (getToken_run upstream c u log Ht) in H.
    destruct (upstream _) as [resp|e] eqn:Hu; inversion H; subst.
    + discriminate Hm.
    + exists u, e. repeat split. exact Hu.
  - rewrite (getToken_falsy upstream c userId log Ht) in H.
    inversion H; subst. discriminate Hm.
Qed.

(** C6. An error that reaches the error handler (one a body parser raised on
    a malformed body, or the router on a route parameter that does not
    decode) is answered with status 500, [error: Internal server error] and
    the fixed message, whatever the error is, and without any outbound
    call. No other failure exists outside the upstream operations: a response
    that carries the failure summary of a handler comes from an error that
    the upstream call of that handler threw. *)
Theorem unhandled_failure_response :
  forall (upstream : Upstream) (c : SendBirdClient) (log : list OutboundCall),
    (forall error : JsError,
        app upstream c (Failed error) log
          = (Returned (mkResponse 500
               (JObj [("success", JBool false);
                      ("error", JStr "Internal server error");
                      ("message", JStr "Something went wrong on the server")])),
             log))
    /\ (forall segment : string,
        Uri.decodeURIComponent segment = None ->
        app upstream c (tokenRequest segment) log
          = (Returned (mkResponse 500
               (JObj [("success", JBool false);
                      ("error", JStr "Internal server error");
                      ("message", JStr "Something went wrong on the server")])),
             log))
    /\ (forall (b : Body) (r : Response) (log' : list OutboundCall),
        app upstream c (PostUsers b) log = (Returned r, log') ->
        field "message" r = Some (JStr "Failed to create user") ->
        exists e,
          upstream (create_call c (body_value b)) = Thrown e
          /\ r = caught_response "Failed to create user" e)
    /\ (forall (userId : option string) (r : Response) (log' : list OutboundCall),
        app upstream c (GetToken userId) log = (Returned r, log') ->
        field "message" r = Some (JStr "Failed to get user token") ->
        exists u e,
          userId = Some u
          /\ upstream (token_call c u) = Thrown e
          /\ r = caught_response "Failed to get user token" e).
Proof.
  intros upstream c log. split; [|split; [|split]].
  - intros error. reflexivity.
  - intros segment Hd. unfold tokenRequest. rewrite Hd. reflexivity.
  - intros b r log'. apply postUsers_catch_only_upstream.
  - intros userId r log'. apply getToken_catch_only_upstream.
Qed.

Lemma unhandled_failure_response_witness :
  Uri.decodeURIComponent "%E0%A4%A" = None
  /\ app (answering 200 sample_token_body) sample_client
         (tokenRequest "%E0%A4%A") []
     = (Returned internal_error_response, []).
Proof.
  split.
  - reflexivity.
  - apply (proj1 (proj2 (unhandled_failure_response
                           (answering 200 sample_token_body) sample_client []))).
    reflexivity.
Defined.

(** ** C7: which responses are Envelopes *)

(** C7, as stated, fails: the response of [GET /health] has no [success]
    field, hence is no Envelope. *)
Lemma health_response_is_no_envelope :
  exists r log',
    app (answering 200 sample_token_body) sample_client
        (GetHealth "2024-01-15T10:30:00.000Z") [] = (Returned r, log')
    /\ has_key "success" (body r) = false
    /\ ~ envelope (body r).
Proof.
  eexists. eexists. split; [reflexivity|]. split; [reflexivity|].
  intros [[H _]|[H _]]; discriminate H.
Qed.

(** C7, amended. Every request is answered. The responses of the token
    handler, of the user-creation handler, of the 404 fallback and of the
    error handler are Envelopes; the response of [GET /health] is the object
    with the fields [status], [timestamp] and [service], at status 200. *)
Theorem responses_are_envelopes_except_health :
  forall (upstream : Upstream) (c : SendBirdClient) (req : Request)
         (log : list OutboundCall),
  exists r log',
    app upstream c req log = (Returned r, log')
    /\ match req with
       | GetHealth now =>
           r = mkResponse 200
                 (JObj [("status", JStr "OK");
                        ("timestamp", JStr now);
                        ("service", JStr "SendBird API Server")])
       | _ => envelope (body r)
       end.
Proof.
  intros upstream c req log. destruct req as [now|userId|b|url|e]; simpl app.
  - eexists. eexists. split; reflexivity.
  - destruct (getToken_answers upstream c userId log) as (r & calls & H & _ & He).
    exists r, (log ++ calls)%list. split; [exact H|].
    apply exactly_one_branch_envelope, He.
  - destruct (postUsers_answers upstream c (body_value b) log)
      as (r & calls & H & _ & He).
    exists r, (log ++ calls)%list. split; [exact H|].
    apply exactly_one_branch_envelope, He.
  - destruct (notFound_exactly_one url log) as (r & H & He).
    exists r, log. split; [exact H|].
    apply exactly_one_branch_envelope, He.
  - eexists. eexists. split; [reflexivity|].
    apply exactly_one_branch_envelope.
    apply (failure_fields_exactly_one _ _ []). reflexivity.
Qed.

(** ** C8: construction of the client *)

Lemma truthy_str_false (v : option string) :
  truthy_str v = false <-> absent_or_empty v.
Proof.
  unfold absent_or_empty. destruct v as [[|a s]|]; simpl.
  - split; [intros _; right; reflexivity | reflexivity].
  - split; [discriminate | intros [H|H]; discriminate H].
  - split; [intros _; left; reflexivity | reflexivity].
Qed.

Lemma constructor_throws (env : Env) :
  (exists e, constructor env = Thrown e)
  <-> absent_or_empty (getenv env "SENDBIRD_APPLICATION_ID")
      \/ absent_or_empty (getenv env "SENDBIRD_API_TOKEN").
Proof.
  unfold constructor. rewrite <- !truthy_str_false.
  destruct (truthy_str (getenv env "SENDBIRD_APPLICATION_ID"));
    destruct (truthy_str (getenv env "SENDBIRD_API_TOKEN")); simpl; split;
    try (intros _; eexists; reflexivity);
    try (intros [e H]; discriminate H);
    try (intros [H|H]; discriminate H);
    try (intros _; left; reflexivity);
    try (intros _; right; reflexivity).
Qed.

Lemma constructor_returns (env : Env) (c : SendBirdClient) :
  constructor env = Returned c ->
  exists a t,
    getenv env "SENDBIRD_APPLICATION_ID" = Some a
    /\ getenv env "SENDBIRD_API_TOKEN" = Some t
    /\ nonempty a = true /\ nonempty t = true
    /\ c = mkClient (Some a) (Some t) ("https://api-" ++ a ++ ".sendbird.com")
           (mkAxiosInstance ("https://api-" ++ a ++ ".sendbird.com")
              [("Api-Token", Some t); ("Content-Type", Some "application/json")]).
Proof.
  unfold constructor.
  destruct (getenv env "SENDBIRD_APPLICATION_ID") as [a|];
    destruct (getenv env "SENDBIRD_API_TOKEN") as [t|]; simpl;
    try discriminate.
  - destruct (nonempty a) eqn:Ha; destruct (nonempty t) eqn:Ht; simpl;
      try discriminate.
    intros H. inversion H. exists a, t. repeat split; assumption.
  - destruct (nonempty a); discriminate.
Qed.

(** Every outbound call of a request is a POST to the base address of the
    axios instance, with the headers of the instance. *)
Lemma served_calls (upstream : Upstream) (c : SendBirdClient) (req : Request)
    (o : Outcome Response) (calls : list OutboundCall) (call : OutboundCall) :
  serve upstream c req = (o, calls) ->
  In call calls ->
  call_method call = "POST"
  /\ call_baseURL call = baseURL (client c)
  /\ call_headers call = headers (client c).
Proof.
  unfold serve. intros H Hin.
  destruct (app_calls upstream c req []) as (r & cs & Hr & Hcs).
  rewrite Hr in H. inversion H; subst. simpl in Hin.
  destruct Hcs as [-> | [(u & ->) | (d & ->)]]; simpl in Hin.
  - contradiction.
  - destruct Hin as [<- | []]. repeat split.
  - destruct Hin as [<- | []]. repeat split.
Qed.

(** C8. The constructor throws exactly when the application identifier or the
    API token is absent or empty, and start-up then exits with code 1 instead
    of serving. When it returns, the routes are served with that client, its
    base address is [https://api-] followed by the application identifier and
    [.sendbird.com], and every outbound call a request causes goes to that
    address as a POST with the headers [Api-Token] (the token) and
    [Content-Type: application/json]. *)
Theorem client_construction :
  forall env : Env,
    ((exists e, constructor env = Thrown e)
       <-> absent_or_empty (getenv env "SENDBIRD_APPLICATION_ID")
           \/ absent_or_empty (getenv env "SENDBIRD_API_TOKEN"))
    /\ ((exists e, constructor env = Thrown e) -> startup env = Exited 1)
    /\ (forall sendbirdClient : SendBirdClient,
          constructor env = Returned sendbirdClient ->
          startup env = Serving sendbirdClient
          /\ exists a t,
              getenv env "SENDBIRD_APPLICATION_ID" = Some a
              /\ getenv env "SENDBIRD_API_TOKEN" = Some t
              /\ clientBaseURL sendbirdClient = "https://api-" ++ a ++ ".sendbird.com"
              /\ baseURL (client sendbirdClient) = "https://api-" ++ a ++ ".sendbird.com"
              /\ forall (upstream : Upstream) (req : Request) (o : Outcome Response)
                        (calls : list OutboundCall) (call : OutboundCall),
                  serve upstream sendbirdClient req = (o, calls) ->
                  In call calls ->
                  call_method call = "POST"
                  /\ call_baseURL call = "https://api-" ++ a ++ ".sendbird.com"
                  /\ call_headers call
                     = [("Api-Token", Some t);
                        ("Content-Type", Some "application/json")]).
Proof.
  intros env. split; [apply constructor_throws|]. split.
  - intros [e He]. unfold startup. rewrite He. reflexivity.
  - intros sc Hc. split; [unfold startup; rewrite Hc; reflexivity|].
    destruct (constructor_returns env sc Hc) as (a & t & Ha & Ht & _ & _ & ->).
    exists a, t. split; [exact Ha|]. split; [exact Ht|].
    split; [reflexivity|]. split; [reflexivity|].
    intros upstream req o calls call Hs Hin.
    exact (served_calls upstream _ req o calls call Hs Hin).
Qed.

Lemma client_construction_witness :
  startup sample_env = Serving sample_client
  /\ startup [("SENDBIRD_APPLICATION_ID", "APP1")] = Exited 1
  /\ startup [("SENDBIRD_APPLICATION_ID", "APP1"); ("SENDBIRD_API_TOKEN", "")]
     = Exited 1.
Proof.
  split; [|split].
  - apply (proj2 (proj2 (client_construction sample_env)) sample_client).
    reflexivity.
  - apply (proj1 (proj2 (client_construction [("SENDBIRD_APPLICATION_ID", "APP1")]))).
    apply (proj2 (proj1 (client_construction [("SENDBIRD_APPLICATION_ID", "APP1")]))).
    right. left. reflexivity.
  - apply (proj1 (proj2 (client_construction
             [("SENDBIRD_APPLICATION_ID", "APP1"); ("SENDBIRD_API_TOKEN", "")]))).
    apply (proj2 (proj1 (client_construction
             [("SENDBIRD_APPLICATION_ID", "APP1"); ("SENDBIRD_API_TOKEN", "")]))).
    right. right. reflexivity.
Defined.

(** ** C9: the [user_id] check is a truthiness check *)

(** C9. When the body has a [user_id], the user-creation handler decides by
    its truthiness: a falsy value (the empty string, [0], [false], [null]) is
    answered with the 400 response [user_id is required] and no outbound
    call; a truthy value, a string or not (for instance a non-zero number),
    passes and the body is forwarded to upstream as it is. *)
Theorem user_id_checked_by_truthiness :
  forall (upstream : Upstream) (c : SendBirdClient)
         (fields : list (string * Json)) (v : Json) (log : list OutboundCall),
    assoc "user_id" fields = Some v ->
    (truthy v = false ->
       app upstream c (PostUsers (BodyObject fields)) log
         = (Returned (mkResponse 400
              (JObj [("success", JBool false);
                     ("error", JStr "user_id is required");
                     ("message", JStr "Please provide a user_id in the request body")])),
            log))
    /\ (truthy v = true ->
        exists r,
          app upstream c (PostUsers (BodyObject fields)) log
            = (Returned r,
               (log ++ [mkCall "POST" (baseURL (client c)) "/v3/users"
                               (headers (client c)) (JObj fields)])%list))
    /\ (v = JStr "" \/ v = JNum 0 \/ v = JBool false \/ v = JNull ->
        truthy v = false)
    /\ (forall n : Z, v = JNum n -> n <> 0%Z -> truthy v = true).
Proof.
  intros upstream c fields v log Hv. repeat split.
  - intros Hf. simpl app. apply postUsers_falsy; [discriminate|].
    simpl. rewrite Hv. exact Hf.
  - intros Ht. simpl app.
    rewrite (postUsers_run upstream c (JObj fields) log)
      by (simpl; rewrite Hv; exact Ht).
    eexists. reflexivity.
  - intros [-> | [-> | [-> | ->]]]; reflexivity.
  - intros n -> Hn. simpl. destruct (Z.eqb_spec n 0); [contradiction|reflexivity].
Qed.

Lemma user_id_checked_by_truthiness_witness :
  app (answering 200 sample_created_body) sample_client
      (PostUsers (BodyObject [("user_id", JNum 0)])) []
    = (Returned missing_user_id_response, [])
  /\ exists r,
      app (answering 200 sample_created_body) sample_client
          (PostUsers (BodyObject [("user_id", JNum 42)])) []
        = (Returned r, [create_call sample_client (JObj [("user_id", JNum 42)])]).
Proof.
  split.
  - destruct (user_id_checked_by_truthiness (answering 200 sample_created_body)
                sample_client [("user_id", JNum 0)] (JNum 0) [] eq_refl)
      as (Hf & _ & Hl & _).
    apply Hf. apply Hl. right. left. reflexivity.
  - destruct (user_id_checked_by_truthiness (answering 200 sample_created_body)
                sample_client [("user_id", JNum 42)] (JNum 42) [] eq_refl)
      as (_ & Ht & _ & Hn).
    apply Ht. apply (Hn 42%Z); [reflexivity|discriminate].
Defined.

(** ** C10: the call of [getUserToken] *)

(** C10, as stated, fails: for a user id that holds a lone surrogate
    [encodeURIComponent] throws, and [getUserToken] sends nothing. *)
Lemma lone_surrogate_sends_nothing :
  getUserToken (answering 200 sample_token_body) sample_client lone_surrogate []
    = (Thrown uri_error, [])
  /\ ~ (exists call,
         snd (getUserToken (answering 200 sample_token_body) sample_client
                lone_surrogate []) = [call]).
Proof.
  split; [reflexivity|]. intros [call H]. discriminate H.
Qed.

(** C10, amended. For a user id without lone surrogates [getUserToken]
    issues one call: a POST to [/v3/users/], the percent-encoding of the user
    id, [/token], with the empty object as body; when the call throws,
    [getUserToken] throws the same error, and when it answers,
    [getUserToken] returns the body of the answer. For a user id that holds a
    lone surrogate, the [URIError] of [encodeURIComponent] is thrown on and
    no call is issued. *)
Theorem getUserToken_call_and_rethrow :
  forall (upstream : Upstream) (c : SendBirdClient) (log : list OutboundCall),
    (forall userId : string,
        well_formed userId = true ->
        exists segment call,
          PercentEncoded userId segment
          /\ call = mkCall "POST" (baseURL (client c))
                           ("/v3/users/" ++ segment ++ "/token")
                           (headers (client c)) (JObj [])
          /\ snd (getUserToken upstream c userId log) = (log ++ [call])%list
          /\ (forall e : JsError,
                upstream call = Thrown e ->
                fst (getUserToken upstream c userId log) = Thrown e)
          /\ (forall resp : AxiosResponse,
                upstream call = Returned resp ->
                fst (getUserToken upstream c userId log) = Returned (data resp)))
    /\ (forall userId : JsString,
        has_surrogate userId = true ->
        getUserToken upstream c userId log
          = (Thrown (mkError "URI malformed" None), log)).
Proof.
  intros upstream c log. split.
  - intros userId _. exists (Uri.escape_octets userId), (token_call c userId).
    rewrite getUserToken_run. repeat split.
    + apply escape_octets_percent_encoded.
    + intros e Hu. rewrite Hu. reflexivity.
    + intros resp Hu. rewrite Hu. reflexivity.
  - intros userId H. apply getUserToken_surrogate. exact H.
Qed.

Lemma getUserToken_call_and_rethrow_witness :
  (exists segment call,
      PercentEncoded "User 2" segment
      /\ call = mkCall "POST" "https://api-APP1.sendbird.com"
                       ("/v3/users/" ++ segment ++ "/token")
                       [("Api-Token", Some "secret");
                        ("Content-Type", Some "application/json")]
                       (JObj [])
      /\ snd (getUserToken (failing empty_message_error) sample_client "User 2" [])
         = [call]
      /\ fst (getUserToken (failing empty_message_error) sample_client "User 2" [])
         = Thrown empty_message_error)
  /\ getUserToken (failing empty_message_error) sample_client lone_surrogate []
     = (Thrown uri_error, []).
Proof.
  destruct (getUserToken_call_and_rethrow (failing empty_message_error)
              sample_client []) as [Hw Hs].
  split.
  - destruct (Hw "User 2" eq_refl) as (segment & call & Hp & Hc & Hl & He & _).
    exists segment, call.
    split; [exact Hp|]. split; [exact Hc|]. split; [exact Hl|].
    apply He. reflexivity.
  - apply Hs. reflexivity.
Defined.

(** ** Concrete runs *)

Example encode_user_2 : Uri.encodeURIComponent "User 2" = Returned "User%202".
Proof. reflexivity. Qed.

Example decode_user_2 : Uri.decodeURIComponent "User%202" = Some "User 2".
Proof. reflexivity. Qed.

Example decode_truncated_escape : Uri.decodeURIComponent "abc%2" = None.
Proof. reflexivity. Qed.

Example decode_two_octets :
  Uri.decodeURIComponent "%C3%A9"
  = Some (String (ascii_of_N 195) (String (ascii_of_N 169) "")).
Proof. reflexivity. Qed.

Example decode_overlong : Uri.decodeURIComponent "%C0%80" = None.
Proof. reflexivity. Qed.

Example decode_surrogate : Uri.decodeURIComponent "%ED%A0%80" = None.
Proof. reflexivity. Qed.

Example encode_lone_surrogate :
  Uri.encodeURIComponent (JsOctet "a" (JsSurrogate 56320 JsEnd))
  = Thrown (mkError "URI malformed" None).
Proof. reflexivity. Qed.

Example token_route_matches :
  route (get_request "/API/users/User%202/token/" "2024-01-15T10:30:00.000Z")
  = Some (GetToken (Some "User 2")).
Proof. reflexivity. Qed.

Example token_route_wants_one_segment :
  matchTokenRoute "/api/users/a/b/token" = None
  /\ matchTokenRoute "/api/users/token" = None.
Proof. split; reflexivity. Qed.

Example constructor_sample : constructor sample_env = Returned sample_client.
Proof. reflexivity. Qed.

Example post_empty_body :
  serve (answering 200 sample_created_body) sample_client
        (PostUsers (BodyObject []))
  = (Returned missing_user_id_response, []).
Proof. reflexivity. Qed.

Example not_found_run :
  exists r,
    serve (answering 200 sample_created_body) sample_client
          (Unmatched "/nonexistent") = (Returned r, [])
    /\ res_status r = 404%Z
    /\ field "error" r = Some (JStr "Endpoint not found").
Proof. eexists. repeat split. Qed.

Example upstream_404_propagates :
  serve (failing (mkError "Request failed with status code 404"
                    (Some (mkAxiosResponse 404
                       (JObj [("error", JBool true);
                              ("message", JStr "User not found")])))))
        sample_client (GetToken (Some "ghost"))
  = (Returned (mkResponse 404
       (JObj [("success", JBool false);
              ("error", JStr "User not found");
              ("message", JStr "Failed to get user token")])),
     [token_call sample_client "ghost"]).
Proof. reflexivity. Qed.

Example network_failure_is_500 :
  serve (failing (mkError "connect ECONNREFUSED" None))
        sample_client (GetToken (Some "ghost"))
  = (Returned (mkResponse 500
       (JObj [("success", JBool false);
              ("error", JStr "connect ECONNREFUSED");
              ("message", JStr "Failed to get user token")])),
     [token_call sample_client "ghost"]).
Proof. reflexivity. Qed.

(** ** More on percent-encoding *)

Lemma count_char_app (ch : ascii) (s t : string) :
  count_char ch (s ++ t) = count_char ch s + count_char ch t.
Proof.
  induction s as [|d s IH]; simpl.
  - reflexivity.
  - rewrite IH. lia.
Qed.

Lemma encode_char_delimiters (ch : ascii) :
  count_char "/" (encode_char ch) = 0
  /\ count_char "?" (encode_char ch) = 0
  /\ count_char "#" (encode_char ch) = 0.
Proof.
  destruct ch as [[] [] [] [] [] [] [] []]; vm_compute; repeat split.
Qed.

Lemma escape_octets_delimiters (s : string) :
  count_char "/" (Uri.escape_octets s) = 0
  /\ count_char "?" (Uri.escape_octets s) = 0
  /\ count_char "#" (Uri.escape_octets s) = 0.
Proof.
  induction s as [|ch s (IH1 & IH2 & IH3)]; simpl.
  - repeat split.
  - fold (encode_char ch). rewrite !count_char_app, IH1, IH2, IH3.
    destruct (encode_char_delimiters ch) as (-> & -> & ->). repeat split.
Qed.

Lemma unescape_encode_char (ch : ascii) (rest : string) :
  unescape (encode_char ch ++ rest) = String ch (unescape rest).
Proof.
  destruct ch as [[] [] [] [] [] [] [] []]; reflexivity.
Qed.

Lemma unescape_encode (s : string) :
  unescape (Uri.escape_octets s) = s.
Proof.
  induction s as [|ch s IH]; simpl.
  - reflexivity.
  - fold (encode_char ch). rewrite unescape_encode_char, IH. reflexivity.
Qed.

Lemma escape_octets_injective (s t : string) :
  Uri.escape_octets s = Uri.escape_octets t -> s = t.
Proof.
  intros H. rewrite <- (unescape_encode s), <- (unescape_encode t), H.
  reflexivity.
Qed.

Lemma length_app (s t : string) :
  String.length (s ++ t) = String.length s + String.length t.
Proof.
  induction s as [|a s IH]; simpl; [reflexivity|rewrite IH; reflexivity].
Qed.

Lemma append_cancel_r (t s s' : string) :
  s ++ t = s' ++ t -> s = s'.
Proof.
  revert s'. induction s as [|a s IH]; intros [|b s'] H; simpl in H.
  - reflexivity.
  - apply (f_equal String.length) in H. simpl in H.
    rewrite length_app in H. lia.
  - apply (f_equal String.length) in H. simpl in H.
    rewrite length_app in H. lia.
  - inversion H. f_equal. apply IH. assumption.
Qed.

Lemma lead_octet_range (b : N) (n : nat) (lo hi : N) :
  Uri.lead_octet b = Some (n, lo, hi) -> (128 <= lo)%N.
Proof.
  unfold Uri.lead_octet.
  repeat match goal with
         | |- context [if ?x then _ else _] => destruct x
         end; intros H; inversion H; lia.
Qed.

Lemma decode_encode_octet (ch : ascii) (rest : string) (need : nat) (lo hi : N) :
  (128 <= lo)%N ->
  Uri.decode need lo hi (encode_char ch ++ rest) =
  match need with
  | O =>
      if (N_of_ascii ch <? 128)%N
      then option_map (String ch) (Uri.decode 0 128 191 rest)
      else
        match Uri.lead_octet (N_of_ascii ch) with
        | Some (n, lo', hi') => option_map (String ch) (Uri.decode n lo' hi' rest)
        | None => None
        end
  | S n =>
      if Uri.between lo hi (N_of_ascii ch)
      then option_map (String ch) (Uri.decode n 128 191 rest)
      else None
  end.
Proof.
  intros Hlo.
  destruct ch as [[] [] [] [] [] [] [] []]; destruct need as [|n];
    first
      [ reflexivity
      | cbn; unfold Uri.between;
        match goal with
        | |- context [(lo <=? ?k)%N] =>
            replace (lo <=? k)%N with false
              by (symmetry; apply N.leb_gt; lia)
        end; reflexivity ].
Qed.

Lemma decode_encode_valid (s : string) :
  forall (need : nat) (lo hi : N),
    (128 <= lo)%N ->
    utf8_valid need lo hi s = true ->
    Uri.decode need lo hi (Uri.escape_octets s) = Some s.
Proof.
  induction s as [|ch s IH]; intros need lo hi Hlo Hv.
  - destruct need; [reflexivity|discriminate Hv].
  - cbn [Uri.escape_octets]. fold (encode_char ch).
    rewrite decode_encode_octet by exact Hlo.
    cbn [utf8_valid] in Hv. destruct need as [|n].
    + destruct (N_of_ascii ch <? 128)%N.
      * rewrite IH by (try lia; exact Hv). reflexivity.
      * destruct (Uri.lead_octet (N_of_ascii ch)) as [[[n lo'] hi']|] eqn:Hl;
          [|discriminate Hv].
        rewrite IH; [reflexivity| |exact Hv].
        exact (lead_octet_range _ _ _ _ Hl).
    + apply andb_true_iff in Hv. destruct Hv as [Hb Hv]. rewrite Hb.
      rewrite IH by (try lia; exact Hv). reflexivity.
Qed.

Lemma unreserved_passes (s : string) :
  all_chars Uri.unreserved s = true ->
  Uri.escape_octets s = s /\ well_formed s = true.
Proof.
  unfold well_formed. induction s as [|ch s IH]; simpl; intros H.
  - split; reflexivity.
  - apply andb_true_iff in H. destruct H as [Hc Hs].
    destruct (IH Hs) as [He Hw]. rewrite Hc, He. split; [reflexivity|].
    assert (Ha : (N_of_ascii ch <? 128)%N = true)
      by (destruct ch as [[] [] [] [] [] [] [] []];
          first [reflexivity | discriminate Hc]).
    rewrite Ha. exact Hw.
Qed.

(** ** How each request is answered *)

(** The embedding of the handlers and the relation [Answer] agree: every
    request is answered in exactly one of the nine ways. *)
Lemma app_answer (upstream : Upstream) (c : SendBirdClient) (req : Request)
    (log : list OutboundCall) :
  exists r calls,
    app upstream c req log = (Returned r, (log ++ calls)%list)
    /\ Answer upstream c req r calls.
Proof.
  destruct req as [now|userId|b|url|e]; simpl app.
  - eexists; exists []. rewrite app_nil_r. split; [reflexivity|constructor].
  - destruct (truthy_str userId) eqn:Ht.
    + destruct userId as [u|]; [|discriminate Ht].
      rewrite (getToken_run upstream c u log Ht).
      destruct (upstream (token_call c u)) as [resp|e] eqn:Hu;
        eexists; eexists; (split; [reflexivity|]).
      * apply AnsToken; assumption.
      * apply AnsTokenFailed; assumption.
    + rewrite (getToken_falsy upstream c userId log Ht).
      eexists; exists []. rewrite app_nil_r.
      split; [reflexivity|constructor; exact Ht].
  - destruct (truthy_opt (opt_member (Some (body_value b)) "user_id")) eqn:Ht.
    + rewrite (postUsers_run upstream c (body_value b) log Ht).
      destruct (upstream (create_call c (body_value b))) as [resp|e] eqn:Hu;
        eexists; eexists; (split; [reflexivity|]).
      * apply AnsCreated; assumption.
      * apply AnsCreateFailed; assumption.
    + rewrite postUsers_falsy; [|destruct b; discriminate|exact Ht].
      eexists; exists []. rewrite app_nil_r.
      split; [reflexivity|constructor; exact Ht].
  - eexists; exists []. rewrite app_nil_r. split; [reflexivity|constructor].
  - eexists; exists []. rewrite app_nil_r. split; [reflexivity|constructor].
Qed.

Lemma serve_answer (upstream : Upstream) (c : SendBirdClient) (req : Request)
    (o : Outcome Response) (calls : list OutboundCall) :
  serve upstream c req = (o, calls) ->
  exists r, o = Returned r /\ Answer upstream c req r calls.
Proof.
  unfold serve. intros H.
  destruct (app_answer upstream c req []) as (r & cs & Hr & Ha).
  rewrite Hr in H. simpl in H. inversion H; subst. exists r. split; [reflexivity|exact Ha].
Qed.

Lemma answer_calls (upstream : Upstream) (c : SendBirdClient) (req : Request)
    (r : Response) (calls : list OutboundCall) :
  Answer upstream c req r calls -> calls = expected_calls c req.
Proof.
  intros H.
  destruct H as [now|userId Hf|u resp Ht _|u e Ht _|b Hf|b resp Ht _|b e Ht _|url|e];
    cbn [expected_calls]; try rewrite Ht; try rewrite Hf; try reflexivity.
  destruct userId as [u|]; [|reflexivity].
  cbn [truthy_str] in Hf. rewrite Hf. reflexivity.
Qed.

Lemma statusCode_valid (e : JsError) :
  (forall resp, response e = Some resp -> valid_status (status resp)) ->
  valid_status (statusCode e).
Proof.
  unfold statusCode, valid_status. intros H.
  destruct (response e) as [resp|]; simpl; [|lia].
  specialize (H resp eq_refl). destruct (status resp =? 0)%Z; lia.
Qed.

Lemma errorMessage_string (e : JsError) :
  (forall m, upstream_message e = Some m -> truthy m = true ->
             is_string (Some m) = true) ->
  is_string (Some (errorMessage e)) = true.
Proof.
  unfold errorMessage, upstream_message. intros H.
  destruct (opt_member (option_map data (response e)) "message") as [m|]; simpl;
    [|reflexivity].
  destruct (truthy m) eqn:Ht; [|reflexivity]. exact (H m eq_refl Ht).
Qed.

(** ** Further properties of the request adapter *)

(** X1. The outbound calls of a request do not depend on how upstream
    answers: a token request with a non-empty [userId] and a user-creation
    request with a truthy [user_id] cause exactly one call, every other
    request none; a failed call is never repeated. *)
Theorem outbound_calls_of_request :
  forall (upstream : Upstream) (c : SendBirdClient) (req : Request)
         (log : list OutboundCall),
    snd (app upstream c req log) = (log ++ expected_calls c req)%list
    /\ length (expected_calls c req) <= 1.
Proof.
  intros upstream c req log. split.
  - destruct (app_answer upstream c req log) as (r & calls & Hr & Ha).
    rewrite Hr. simpl. rewrite (answer_calls _ _ _ _ _ Ha). reflexivity.
  - destruct req as [now|[u|]|b|url|e]; simpl; try lia.
    + destruct (nonempty u); simpl; lia.
    + destruct (truthy_opt _); simpl; lia.
Qed.

(** X2. A response says [success: true] only when the upstream call was made
    and answered: then exactly one call was issued, [data] is the body of its
    answer, and the status is 200 (token) or 201 (user creation). *)
Theorem success_only_after_upstream_answer :
  forall (upstream : Upstream) (c : SendBirdClient) (req : Request)
         (r : Response) (calls : list OutboundCall),
    serve upstream c req = (Returned r, calls) ->
    field "success" r = Some (JBool true) ->
    exists call resp,
      calls = [call]
      /\ upstream call = Returned resp
      /\ field "data" r = Some (data resp)
      /\ (res_status r = 200%Z \/ res_status r = 201%Z).
Proof.
  intros upstream c req r calls Hs Hok.
  destruct (serve_answer _ _ _ _ _ Hs) as (r' & Hr & Ha).
  inversion Hr; subst r'. clear Hr.
  destruct Ha; try discriminate Hok.
  - exists (token_call c u), resp. repeat split; try assumption. left. reflexivity.
  - exists (create_call c (body_value b)), resp. repeat split; try assumption.
    right. reflexivity.
Qed.

Lemma success_only_after_upstream_answer_witness :
  exists call resp,
    [token_call sample_client "User 2"] = [call]
    /\ answering 200 sample_token_body call = Returned resp
    /\ field "data" (token_response "User 2" sample_token_body) = Some (data resp)
    /\ (res_status (token_response "User 2" sample_token_body) = 200%Z
        \/ res_status (token_response "User 2" sample_token_body) = 201%Z).
Proof.
  apply (success_only_after_upstream_answer (answering 200 sample_token_body)
           sample_client (GetToken (Some "User 2"))
           (token_response "User 2" sample_token_body)
           [token_call sample_client "User 2"]).
  - reflexivity.
  - reflexivity.
Defined.

(** X3. When every status that upstream attaches to an error lies in
    100..599, so does the status of every response: the handlers never hand
    [res.status] a code outside the HTTP range. *)
Theorem response_status_valid :
  forall (upstream : Upstream) (c : SendBirdClient) (req : Request)
         (r : Response) (calls : list OutboundCall),
    (forall call e resp,
        upstream call = Thrown e -> response e = Some resp ->
        valid_status (status resp)) ->
    serve upstream c req = (Returned r, calls) ->
    valid_status (res_status r).
Proof.
  intros upstream c req r calls Hup Hs.
  destruct (serve_answer _ _ _ _ _ Hs) as (r' & Hr & Ha).
  inversion Hr; subst r'. clear Hr.
  destruct Ha; try (unfold valid_status; simpl; lia).
  - apply statusCode_valid. intros resp. apply (Hup _ _ _ H0).
  - apply statusCode_valid. intros resp. apply (Hup _ _ _ H0).
Qed.

Lemma response_status_valid_witness :
  valid_status
    (res_status (caught_response "Failed to get user token"
                   (status_error 404 "User not found"))).
Proof.
  apply (response_status_valid (failing (status_error 404 "User not found"))
           sample_client (GetToken (Some "ghost")) _
           [token_call sample_client "ghost"]).
  - intros call e resp He Hr. inversion He; subst e. inversion Hr; subst resp.
    unfold valid_status. simpl. lia.
  - reflexivity.
Defined.

(** X4. When upstream only ever puts strings (or falsy values) in the
    [message] of its error bodies, the [error] field of every failure
    response is a string, as the documented [ErrorResponse] schema says. *)
Theorem error_field_is_string :
  forall (upstream : Upstream) (c : SendBirdClient) (req : Request)
         (r : Response) (calls : list OutboundCall),
    (forall call e m,
        upstream call = Thrown e -> upstream_message e = Some m ->
        truthy m = true -> is_string (Some m) = true) ->
    serve upstream c req = (Returned r, calls) ->
    field "success" r = Some (JBool false) ->
    is_string (field "error" r) = true.
Proof.
  intros upstream c req r calls Hup Hs Hf.
  destruct (serve_answer _ _ _ _ _ Hs) as (r' & Hr & Ha).
  inversion Hr; subst r'. clear Hr.
  destruct Ha; try discriminate Hf; try reflexivity.
  - apply errorMessage_string. intros m. apply (Hup _ _ _ H0).
  - apply errorMessage_string. intros m. apply (Hup _ _ _ H0).
Qed.

Lemma error_field_is_string_witness :
  is_string (field "error" (caught_response "Failed to create user"
                              (status_error 400 "user_id already exists")))
  = true.
Proof.
  apply (error_field_is_string
           (failing (status_error 400 "user_id already exists"))
           sample_client (PostUsers (BodyObject sample_user)) _
           [create_call sample_client (JObj sample_user)]).
  - intros call e m He Hm _. inversion He; subst e.
    inversion Hm; subst m. reflexivity.
  - reflexivity.
  - reflexivity.
Defined.

(** X5. The keys of every response body are those of its documented schema,
    in order and without duplicates: [success, data, message] for a success,
    [success, error, message] for a failure, the latter followed by
    [availableEndpoints] in the 404 fallback, and [status, timestamp, service]
    for the health check; outside the health check [message] is a string. *)
Theorem response_keys_follow_schema :
  forall (upstream : Upstream) (c : SendBirdClient) (req : Request),
  exists r calls,
    serve upstream c req = (Returned r, calls)
    /\ match req with
       | GetHealth _ => keys (body r) = ["status"; "timestamp"; "service"]
       | GetToken _ =>
           (keys (body r) = TokenResponse_properties
            \/ keys (body r) = ErrorResponse_properties)
           /\ is_string (field "message" r) = true
       | PostUsers _ =>
           (keys (body r) = UserResponse_properties
            \/ keys (body r) = ErrorResponse_properties)
           /\ is_string (field "message" r) = true
       | Unmatched _ =>
           keys (body r) = (ErrorResponse_properties ++ ["availableEndpoints"])%list
           /\ is_string (field "message" r) = true
       | Failed _ =>
           keys (body r) = ErrorResponse_properties
           /\ is_string (field "message" r) = true
       end.
Proof.
  intros upstream c req. unfold serve.
  destruct (app_answer upstream c req []) as (r & calls & Hr & Ha).
  exists r, calls. split; [exact Hr|].
  destruct Ha; simpl; try reflexivity; split; try reflexivity;
    first [left; reflexivity | right; reflexivity].
Qed.

(** X6. [getUserToken] either throws without issuing a call (a user id
    with a lone surrogate) or issues one call whose [url], as handed to
    axios, has exactly the four slashes of [/v3/users/.../token] and neither
    [?] nor [#], whatever the user id holds. Dots are left as they are: the
    user id [..] gives the url [/v3/users/../token]. *)
Theorem token_url_delimiters :
  forall (upstream : Upstream) (c : SendBirdClient) (log : list OutboundCall),
    (forall userId : JsString,
        (has_surrogate userId = true
         /\ getUserToken upstream c userId log = (Thrown uri_error, log))
        \/ (has_surrogate userId = false
            /\ exists o call,
                getUserToken upstream c userId log = (o, (log ++ [call])%list)
                /\ count_char "/" (call_url call) = 4
                /\ count_char "?" (call_url call) = 0
                /\ count_char "#" (call_url call) = 0))
    /\ snd (getUserToken upstream c ".." log)
       = (log ++ [mkCall "POST" (baseURL (client c)) "/v3/users/../token"
                         (headers (client c)) (JObj [])])%list.
Proof.
  intros upstream c log. split.
  - intros userId. destruct (has_surrogate userId) eqn:Hs.
    + left. split; [reflexivity|]. apply getUserToken_surrogate. exact Hs.
    + right. split; [reflexivity|].
      destruct (no_surrogate_of_string userId Hs) as [t ->].
      rewrite getUserToken_run.
      eexists. exists (token_call c t). split; [reflexivity|].
      unfold token_call. cbn [call_url].
      destruct (escape_octets_delimiters t) as (H1 & H2 & H3).
      rewrite !count_char_app, H1, H2, H3. repeat split.
  - rewrite getUserToken_run. reflexivity.
Qed.

(** X7. Distinct user ids without lone surrogates make [getUserToken] issue
    distinct calls: two such users are never sent to the same upstream path,
    however their ids are spelled. *)
Theorem distinct_users_distinct_paths :
  forall (upstream : Upstream) (c : SendBirdClient) (u1 u2 : string)
         (log : list OutboundCall),
    well_formed u1 = true ->
    well_formed u2 = true ->
    u1 <> u2 ->
    snd (getUserToken upstream c u1 log) <> snd (getUserToken upstream c u2 log).
Proof.
  intros upstream c u1 u2 log _ _ Hne H. apply Hne.
  rewrite !getUserToken_run in H. simpl in H.
  apply app_inv_head in H. inversion H as [Hp].
  apply append_cancel_r in Hp. apply escape_octets_injective. exact Hp.
Qed.

Lemma distinct_users_distinct_paths_witness :
  snd (getUserToken (answering 200 sample_token_body) sample_client "a/b" [])
  <> snd (getUserToken (answering 200 sample_token_body) sample_client "a%2Fb" []).
Proof.
  apply (distinct_users_distinct_paths (answering 200 sample_token_body)
           sample_client "a/b" "a%2Fb" []).
  - reflexivity.
  - reflexivity.
  - discriminate.
Defined.

(** X8. For a well-formed user id, [encodeURIComponent] returns a path
    segment that the router decodes back to the user id, so a caller that
    encodes the id has the token handler read exactly that id, and the
    segment sent upstream is the segment that came in. *)
Theorem router_undoes_client_encoding :
  forall (upstream : Upstream) (c : SendBirdClient) (userId : string),
    well_formed userId = true ->
    exists segment,
      Uri.encodeURIComponent userId = Returned segment
      /\ tokenRequest segment = GetToken (Some userId)
      /\ (nonempty userId = true ->
          snd (serve upstream c (tokenRequest segment))
            = [mkCall "POST" (baseURL (client c))
                      ("/v3/users/" ++ segment ++ "/token")
                      (headers (client c)) (JObj [])]).
Proof.
  intros upstream c userId Hw. exists (Uri.escape_octets userId).
  assert (Hr : tokenRequest (Uri.escape_octets userId) = GetToken (Some userId)).
  { unfold tokenRequest, Uri.decodeURIComponent.
    rewrite (decode_encode_valid userId 0 128 191) by (try lia; exact Hw).
    reflexivity. }
  split; [apply encodeURIComponent_of_string|]. split; [exact Hr|].
  intros Hn. rewrite Hr. unfold serve. simpl app.
  rewrite (getToken_run upstream c userId [] Hn). reflexivity.
Qed.

Lemma router_undoes_client_encoding_witness :
  exists segment,
    Uri.encodeURIComponent sample_non_ascii = Returned segment
    /\ tokenRequest segment = GetToken (Some sample_non_ascii)
    /\ snd (serve (answering 200 sample_token_body) sample_client
              (tokenRequest segment))
       = [mkCall "POST" "https://api-APP1.sendbird.com"
                 ("/v3/users/" ++ segment ++ "/token")
                 [("Api-Token", Some "secret");
                  ("Content-Type", Some "application/json")]
                 (JObj [])].
Proof.
  destruct (router_undoes_client_encoding (answering 200 sample_token_body)
              sample_client sample_non_ascii eq_refl) as (segment & He & Hr & Hc).
  exists segment. split; [exact He|]. split; [exact Hr|].
  apply Hc. reflexivity.
Defined.

(** X9. A request routed to the token handler by a non-empty path segment
    never gets the answer [User ID is required]: either the segment does not
    decode and the error handler answers with the fixed 500 response without
    any call, or it decodes to a non-empty user id and exactly the call for
    that id is made. *)
Theorem routed_token_request_has_user_id :
  forall (upstream : Upstream) (c : SendBirdClient) (segment : string),
    nonempty segment = true ->
    (Uri.decodeURIComponent segment = None
     /\ serve upstream c (tokenRequest segment)
        = (Returned internal_error_response, []))
    \/ (exists u,
         Uri.decodeURIComponent segment = Some u
         /\ nonempty u = true
         /\ snd (serve upstream c (tokenRequest segment)) = [token_call c u]
         /\ fst (serve upstream c (tokenRequest segment))
            <> Returned missing_userId_response).
Proof.
  intros upstream c segment Hn. unfold tokenRequest.
  destruct (Uri.decodeURIComponent segment) as [u|] eqn:Hd.
  - right. exists u.
    assert (Hu : nonempty u = true) by exact (decode_nonempty _ _ _ _ _ Hd Hn).
    split; [reflexivity|]. split; [exact Hu|].
    unfold serve. simpl app. rewrite (getToken_run upstream c u [] Hu).
    split; [reflexivity|].
    destruct (upstream (token_call c u)); simpl; intros H; inversion H.
  - left. split; reflexivity.
Qed.

Lemma routed_token_request_has_user_id_witness :
  (Uri.decodeURIComponent "%20" = None
   /\ serve (answering 200 sample_token_body) sample_client (tokenRequest "%20")
      = (Returned internal_error_response, []))
  \/ (exists u,
       Uri.decodeURIComponent "%20" = Some u
       /\ nonempty u = true
       /\ snd (serve (answering 200 sample_token_body) sample_client
                 (tokenRequest "%20")) = [token_call sample_client u]
       /\ fst (serve (answering 200 sample_token_body) sample_client
                 (tokenRequest "%20")) <> Returned missing_userId_response).
Proof.
  apply (routed_token_request_has_user_id (answering 200 sample_token_body)
           sample_client "%20").
  reflexivity.
Defined.

(** X10. The listening port is 3000 exactly when [PORT] is unset or empty;
    any other value of the variable is taken as it is, a string, without
    being checked for a number. *)
Theorem port_default :
  forall env : Env,
    (PORT env = JNum 3000 <-> absent_or_empty (getenv env "PORT"))
    /\ (forall v : string,
          getenv env "PORT" = Some v -> nonempty v = true -> PORT env = JStr v).
Proof.
  intros env. unfold PORT, absent_or_empty.
  destruct (getenv env "PORT") as [[|a v]|]; simpl; split.
  - split; [intros _; right; reflexivity|reflexivity].
  - intros v H. inversion H; subst. discriminate.
  - split; [discriminate|intros [H|H]; discriminate H].
  - intros v' H _. inversion H. reflexivity.
  - split; [intros _; left; reflexivity|reflexivity].
  - intros v H. discriminate H.
Qed.

Lemma port_default_witness :
  PORT [("PORT", "8080")] = JStr "8080"
  /\ PORT [("PORT", "")] = JNum 3000
  /\ PORT sample_env = JNum 3000
  /\ PORT [("PORT", "http")] = JStr "http".
Proof.
  split; [|split; [|split]].
  - apply (proj2 (port_default [("PORT", "8080")]) "8080"); reflexivity.
  - apply (proj2 (proj1 (port_default [("PORT", "")]))). right. reflexivity.
  - apply (proj2 (proj1 (port_default sample_env))). left. reflexivity.
  - apply (proj2 (port_default [("PORT", "http")]) "http"); reflexivity.
Defined.

(** X11. The handlers never read the base address or the token of the
    client themselves: two servers whose clients differ but whose upstream
    calls settle alike answer every request alike. What the call throws does
    reach the caller: when the error carries no response (a transport
    failure), its message, which may name the upstream host, is copied into
    [error] as it is, at status 500. *)
Theorem client_config_reaches_caller_through_upstream :
  forall (up1 up2 : Upstream) (c1 c2 : SendBirdClient) (req : Request),
    ((forall u : string, up1 (token_call c1 u) = up2 (token_call c2 u)) ->
     (forall d, up1 (create_call c1 d) = up2 (create_call c2 d)) ->
     fst (serve up1 c1 req) = fst (serve up2 c2 req))
    /\ (forall (r : Response) (call : OutboundCall) (e : JsError),
          serve up1 c1 req = (Returned r, [call]) ->
          up1 call = Thrown e ->
          response e = None ->
          field "error" r = Some (JStr (message e))
          /\ res_status r = 500%Z).
Proof.
  intros up1 up2 c1 c2 req. split.
  - intros Ht Hc. unfold serve.
    destruct req as [now|userId|b|url|e]; simpl app; try reflexivity.
    + destruct (truthy_str userId) eqn:Hu.
      * destruct userId as [u|]; [|discriminate Hu].
        rewrite !(getToken_run _ _ u [] Hu), Ht. reflexivity.
      * rewrite !(getToken_falsy _ _ userId [] Hu). reflexivity.
    + destruct (truthy_opt (opt_member (Some (body_value b)) "user_id")) eqn:Hu.
      * rewrite !(postUsers_run _ _ (body_value b) [] Hu), Hc. reflexivity.
      * rewrite !postUsers_falsy by (first [exact Hu | destruct b; discriminate]).
        reflexivity.
  - intros r call e Hs Hu Hr.
    destruct (serve_answer _ _ _ _ _ Hs) as (r' & Heq & Ha).
    inversion Heq; subst r'. clear Heq.
    assert (Hm : forall s, caught_response s e
                   = mkResponse 500
                       (JObj [("success", JBool false);
                              ("error", JStr (message e));
                              ("message", JStr s)])).
    { intros s. unfold caught_response, statusCode, errorMessage.
      rewrite Hr. reflexivity. }
    inversion Ha; subst; try congruence.
    + assert (e0 = e) by congruence. subst e0. rewrite Hm. split; reflexivity.
    + assert (e0 = e) by congruence. subst e0. rewrite Hm. split; reflexivity.
Qed.

Lemma client_config_reaches_caller_through_upstream_witness :
  fst (serve (failing dns_error) sample_client (GetToken (Some "User 2")))
  = fst (serve (failing dns_error) other_client (GetToken (Some "User 2")))
  /\ field "error" (caught_response "Failed to get user token" dns_error)
     = Some (JStr "getaddrinfo ENOTFOUND api-APP1.sendbird.com")
  /\ res_status (caught_response "Failed to get user token" dns_error) = 500%Z.
Proof.
  destruct (client_config_reaches_caller_through_upstream
              (failing dns_error) (failing dns_error)
              sample_client other_client (GetToken (Some "User 2")))
    as [Hsame Hleak].
  split.
  - apply Hsame; reflexivity.
  - exact (Hleak (caught_response "Failed to get user token" dns_error)
                 (token_call sample_client "User 2") dns_error
                 eq_refl eq_refl eq_refl).
Defined.

(** X12. A user id made of letters, digits and [- _ . ! ~ * ' ( )] only is
    its own path segment on both sides: the router hands it to the handler as
    it came in, and [getUserToken] puts it in the upstream path as it is. *)
Theorem unreserved_user_id_verbatim :
  forall (upstream : Upstream) (c : SendBirdClient) (userId : string)
         (log : list OutboundCall),
    all_chars Uri.unreserved userId = true ->
    tokenRequest userId = GetToken (Some userId)
    /\ snd (getUserToken upstream c userId log)
       = (log ++ [mkCall "POST" (baseURL (client c))
                         ("/v3/users/" ++ userId ++ "/token")
                         (headers (client c)) (JObj [])])%list.
Proof.
  intros upstream c userId log Hu.
  destruct (unreserved_passes userId Hu) as [He Hw]. split.
  - unfold tokenRequest, Uri.decodeURIComponent.
    rewrite <- He at 1.
    rewrite (decode_encode_valid userId 0 128 191) by (try lia; exact Hw).
    reflexivity.
  - rewrite getUserToken_run. unfold token_call. rewrite He. reflexivity.
Qed.

Lemma unreserved_user_id_verbatim_witness :
  tokenRequest "john_doe" = GetToken (Some "john_doe")
  /\ snd (getUserToken (answering 200 sample_token_body) sample_client "john_doe" [])
     = [mkCall "POST" "https://api-APP1.sendbird.com" "/v3/users/john_doe/token"
               [("Api-Token", Some "secret");
                ("Content-Type", Some "application/json")]
               (JObj [])].
Proof.
  apply (unreserved_user_id_verbatim (answering 200 sample_token_body)
           sample_client "john_doe" []).
  reflexivity.
Defined.

(** X13. When the body of the upstream error response is not a JSON object
    (a string such as an HTML page, an array, a number, [null]), the [error]
    field of the failure response is the message of the local error. *)
Theorem non_object_error_body_falls_back :
  forall (upstream : Upstream) (c : SendBirdClient) (req : Request)
         (r : Response) (call : OutboundCall) (e : JsError) (resp : AxiosResponse),
    serve upstream c req = (Returned r, [call]) ->
    upstream call = Thrown e ->
    response e = Some resp ->
    (forall fields, data resp <> JObj fields) ->
    field "error" r = Some (JStr (message e))
    /\ res_status r = (if (status resp =? 0)%Z then 500%Z else status resp).
Proof.
  intros upstream c req r call e resp Hs Hu Hr Hd.
  destruct (serve_answer _ _ _ _ _ Hs) as (r' & Heq & Ha).
  inversion Heq; subst r'. clear Heq.
  assert (Hm : forall s, caught_response s e
                 = mkResponse (if (status resp =? 0)%Z then 500%Z else status resp)
                     (JObj [("success", JBool false);
                            ("error", JStr (message e));
                            ("message", JStr s)])).
  { intros s. unfold caught_response, statusCode, errorMessage. rewrite Hr. simpl.
    destruct (data resp) as [| | | | |fields] eqn:Hdata; try reflexivity.
    exfalso. exact (Hd fields eq_refl). }
  inversion Ha; subst; try congruence.
  - assert (e0 = e) by congruence. subst e0. rewrite Hm. split; reflexivity.
  - assert (e0 = e) by congruence. subst e0. rewrite Hm. split; reflexivity.
Qed.

Lemma non_object_error_body_falls_back_witness :
  field "error" (caught_response "Failed to get user token" bad_gateway_error)
  = Some (JStr "Request failed with status code 502")
  /\ res_status (caught_response "Failed to get user token" bad_gateway_error)
     = 502%Z.
Proof.
  exact (non_object_error_body_falls_back
           (failing bad_gateway_error) sample_client (GetToken (Some "u1"))
           (caught_response "Failed to get user token" bad_gateway_error)
           (token_call sample_client "u1") bad_gateway_error
           (mkAxiosResponse 502 (JStr "<html>Bad Gateway</html>"))
           eq_refl eq_refl eq_refl
           (fun fields H => eq_ind (JStr "<html>Bad Gateway</html>")
                              (fun v => match v with JStr _ => True | _ => False end)
                              I (JObj fields) H)).
Defined.
